(** * The [useSupabase] hook of reai-os-sdk: a shallow embedding

    Source: [src/supabase-sdk.js].  The hook keeps four pieces of React
    state ([supabase], [error], [loading], [isInitialized]) and, in an
    effect, runs the asynchronous routine [setupClient] once per
    activation (at mount, and again whenever [appId] or [initialize]
    changes).  [setupClient] is embedded as a computation in a small
    state-and-exception monad; the browser, the Supabase client library,
    the [app_installations] table and the caller's callback are the
    environment it runs against. *)

From stdpp Require Import base strings list gmap.

Open Scope string_scope.

(** ** JavaScript values *)

(** The values that flow through [setupClient].  A client handle is the
    object returned by [createClient(url, key)]; a row is the object
    [{initialized: v}] returned by [select('initialized')]; [VError] is
    an instance of [Error] (or of a subclass, named by [name]);
    [VPgError] is the error object of a database response, which carries
    a [code]. *)
Inductive value : Type :=
| VUndefined
| VNull
| VBool (b : bool)
| VStr (s : string)
| VError (name message : string)
| VPgError (code message : string)
| VRow (initialized : value)
| VClient (url key : value).

(** [!!v] of JavaScript: [undefined], [null], [false] and the empty
    string are falsy; every object is truthy. *)
Definition truthy (v : value) : bool :=
  match v with
  | VUndefined | VNull => false
  | VBool b => b
  | VStr s => negb (String.eqb s "")
  | VError _ _ | VPgError _ _ | VRow _ | VClient _ _ => true
  end.

(** [a || b] *)
Definition js_or (a b : value) : value := if truthy a then a else b.

(** [v.code] on a truthy value *)
Definition get_code (v : value) : value :=
  match v with
  | VPgError c _ => VStr c
  | _ => VUndefined
  end.

(** [v?.initialized] *)
Definition opt_initialized (v : value) : value :=
  match v with
  | VRow i => i
  | _ => VUndefined
  end.

(** [v !== s] for a string literal [s] *)
Definition strict_ne_str (v : value) (s : string) : bool :=
  match v with
  | VStr s' => negb (String.eqb s' s)
  | _ => true
  end.

Definition is_null (v : value) : bool :=
  match v with VNull => true | _ => false end.

(** ** The environment *)

(** What the page provides: the query string of [window.location],
    already split into name/value pairs, and the binding (if any) that the
    free identifier [appID] of line 40 resolves to in the global scope. *)
Record Env : Type := {
  search : list (string * string);
  global_appID : option string
}.

(** [new URLSearchParams(search).get(name)]: the value of the first pair
    called [name], or [null]. *)
Fixpoint params_get (params : list (string * string)) (name : string) : value :=
  match params with
  | [] => VNull
  | (k, v) :: rest => if String.eqb k name then VStr v else params_get rest name
  end.

(** Response objects of the client library: [{data, error}]. *)
Record Response : Type := { data : value; resp_error : value }.

(** How the outside world answers during one activation.  [Some e] in
    the first two fields makes the call throw (or its promise reject
    with) [e]; in the last two it makes the request answer with the error
    object [VPgError code message] instead of touching the table. *)
Record World : Type := {
  createClient_throws : option value;
  setSession_rejects : option value;
  select_fails : option (string * string);
  upsert_fails : option (string * string)
}.

(** The caller's [initialize] callback: given the client and the table,
    it may change the table and may throw. *)
Definition Callback : Type :=
  value -> gmap string bool -> option value * gmap string bool.

(** [const defaultInitialize = async () => {};] *)
Definition defaultInitialize : Callback := fun _ db => (None, db).

(** ** Hook state and the trace of an activation *)

(** The four [useState] cells; [useSupabase] returns exactly this
    record. *)
Record HookState : Type := {
  supabase : value;
  error : value;
  loading : bool;
  isInitialized : bool
}.

(** The initial values given to [useState] (lines 11-14). *)
Definition mount : HookState :=
  {| supabase := VNull; error := VNull; loading := true; isInitialized := false |}.

Inductive Event : Type :=
| CreateClient (url key : value)
| SetSession (client access_token refresh_token : value)
| SelectSingle (client : value) (table columns column key : string) (resp : Response)
| Initialize (client : value) (thrown : option value)
| Upsert (client : value) (table app_id : string) (initialized : bool)
         (onConflict : string) (upsertError : value)
| SetSupabase (v : value)
| SetError (v : value)
| SetLoading (b : bool)
| SetIsInitialized (b : bool).

Record State : Type := {
  hook : HookState;
  store : gmap string bool;
  log : list Event
}.

(** ** The monad: state, plus exceptions that keep the state *)

Inductive completion (A : Type) : Type :=
| Normal (a : A)
| Throw (v : value).
Arguments Normal {A} a.
Arguments Throw {A} v.

Definition M (A : Type) : Type := State -> completion A * State.

#[global] Instance M_ret : MRet M := fun A (a : A) s => (Normal a, s).

#[global] Instance M_bind : MBind M := fun A B (k : A -> M B) (m : M A) s =>
  match m s with
  | (Normal a, s') => k a s'
  | (Throw v, s') => (Throw v, s')
  end.

Definition throw {A} (v : value) : M A := fun s => (Throw v, s).

(** [if (c) throw ...;] and the like *)
Definition when (c : bool) (m : M unit) : M unit := if c then m else mret tt.

(** [try { body } catch (err) { handler } finally { fin }] *)
Definition try_catch_finally (body : M unit) (handler : value -> M unit)
    (fin : M unit) : M unit :=
  fun s =>
    match body s with
    | (Normal _, s1) => fin s1
    | (Throw err, s1) =>
        match handler err s1 with
        | (Normal _, s2) => fin s2
        | (Throw err', s2) =>
            match fin s2 with
            | (Normal _, s3) => (Throw err', s3)
            | r => r
            end
        end
    end.

Definition emit (e : Event) : M unit :=
  fun s => (Normal tt, {| hook := hook s; store := store s; log := log s ++ [e] |}).

Definition set_hook (f : HookState -> HookState) : M unit :=
  fun s => (Normal tt, {| hook := f (hook s); store := store s; log := log s |}).

(** *** The four state setters *)

Definition setSupabase (v : value) : M unit :=
  emit (SetSupabase v) ;;
  set_hook (fun h => {| supabase := v; error := error h; loading := loading h;
                        isInitialized := isInitialized h |}).

Definition setError (v : value) : M unit :=
  emit (SetError v) ;;
  set_hook (fun h => {| supabase := supabase h; error := v; loading := loading h;
                        isInitialized := isInitialized h |}).

Definition setLoading (b : bool) : M unit :=
  emit (SetLoading b) ;;
  set_hook (fun h => {| supabase := supabase h; error := error h; loading := b;
                        isInitialized := isInitialized h |}).

Definition setIsInitialized (b : bool) : M unit :=
  emit (SetIsInitialized b) ;;
  set_hook (fun h => {| supabase := supabase h; error := error h; loading := loading h;
                        isInitialized := b |}).

(** *** The outside calls *)

(** [createClient(url, key)] *)
Definition createClient (w : World) (url key : value) : M value :=
  emit (CreateClient url key) ;;
  match createClient_throws w with
  | Some e => throw e
  | None => mret (VClient url key)
  end.

(** [await client.auth.setSession({access_token, refresh_token})]; the
    source drops the resolved value. *)
Definition setSession (w : World) (client access refresh : value) : M unit :=
  emit (SetSession client access refresh) ;;
  match setSession_rejects w with
  | Some e => throw e
  | None => mret tt
  end.

(** Reading the identifier [appID]: a [ReferenceError] when nothing in
    the global scope is called that. *)
Definition read_appID (env : Env) : M string :=
  match global_appID env with
  | Some v => mret v
  | None => throw (VError "ReferenceError" "appID is not defined")
  end.

(** The answer of the table to [select(columns).eq(column, key).single()]:
    the row of [key], or the "no rows" error [PGRST116]. *)
Definition select_single (w : World) (db : gmap string bool) (key : string) : Response :=
  match select_fails w with
  | Some (c, m) => {| data := VNull; resp_error := VPgError c m |}
  | None =>
      match db !! key with
      | Some b => {| data := VRow (VBool b); resp_error := VNull |}
      | None => {| data := VNull;
                   resp_error := VPgError "PGRST116" "JSON object requested, multiple (or no) rows returned" |}
      end
  end.

(** [await client.from(table).select(columns).eq(column, key).single()];
    the request is sent when the builder is awaited. *)
Definition from_select_eq_single (w : World) (client : value)
    (table columns column key : string) : M Response :=
  fun s =>
    let r := select_single w (store s) key in
    (Normal r,
     {| hook := hook s; store := store s;
        log := log s ++ [SelectSingle client table columns column key r] |}).

(** [await initialize(client)] *)
Definition call_initialize (initialize : Callback) (client : value) : M unit :=
  fun s =>
    let '(thrown, db) := initialize client (store s) in
    let s' := {| hook := hook s; store := db; log := log s ++ [Initialize client thrown] |} in
    match thrown with
    | Some e => (Throw e, s')
    | None => (Normal tt, s')
    end.

(** [await client.from(table).upsert({app_id, initialized}, {onConflict})]:
    the row of [app_id] is inserted or overwritten, unless the request
    fails. *)
Definition from_upsert (w : World) (client : value) (table app_id : string)
    (initialized : bool) (onConflict : string) : M value :=
  fun s =>
    match upsert_fails w with
    | Some (c, m) =>
        (Normal (VPgError c m),
         {| hook := hook s; store := store s;
            log := log s ++ [Upsert client table app_id initialized onConflict (VPgError c m)] |})
    | None =>
        (Normal VNull,
         {| hook := hook s; store := <[app_id := initialized]> (store s);
            log := log s ++ [Upsert client table app_id initialized onConflict VNull] |})
    end.

(** ** [setupClient] (lines 17-72) *)

Definition missing_parameters : value :=
  VError "Error"
    "Missing required URL parameters: supabaseUrl, supabaseKey, accessToken, or refreshToken".

Definition setupClient (env : Env) (w : World) (appId : string)
    (initialize : Callback) : M unit :=
  try_catch_finally
    (let params := search env in
     let supabaseUrl := params_get params "supabaseUrl" in
     let supabaseKey := params_get params "supabaseKey" in
     let accessToken := params_get params "accessToken" in
     let refreshToken := params_get params "refreshToken" in
     when (negb (truthy supabaseUrl) || negb (truthy supabaseKey)
           || negb (truthy accessToken) || negb (truthy refreshToken))
       (throw missing_parameters) ;;
     client ← createClient w supabaseUrl supabaseKey;
     setSession w client accessToken refreshToken ;;
     appID ← read_appID env;
     r ← from_select_eq_single w client "app_installations" "initialized" "app_id" appID;
     let installData := data r in
     let installError := resp_error r in
     when (truthy installError && strict_ne_str (get_code installError) "PGRST116")
       (throw installError) ;;
     let alreadyInitialized := js_or (opt_initialized installData) (VBool false) in
     (if negb (truthy alreadyInitialized) then
        call_initialize initialize client ;;
        upsertError ← from_upsert w client "app_installations" appId true "app_id";
        when (truthy upsertError) (throw upsertError) ;;
        setIsInitialized true
      else
        setIsInitialized true) ;;
     setSupabase client)
    (fun err => setError err)
    (setLoading false).

(** ** Activations of the hook *)

(** What one run of the effect sees: the outside world's answers and the
    two dependencies [appId] and [initialize] of [useSupabase]. *)
Record Activation : Type := {
  world : World;
  appId : string;
  initialize : Callback
}.

(** [setupClient();] inside the effect: the promise is dropped, the
    state it leaves behind is what the next render returns. *)
Definition activate_from (env : Env) (a : Activation) (s : State) : State :=
  snd (setupClient env (world a) (appId a) (initialize a) s).

(** One activation, observed on its own: it starts from the hook state
    [h] and the table [db], with an empty trace. *)
Definition activate (env : Env) (a : Activation) (h : HookState)
    (db : gmap string bool) : State :=
  activate_from env a {| hook := h; store := db; log := [] |}.

(** Activations one after another, each completing before the next
    starts: React keeps the [useState] cells between runs of the effect,
    and the table persists. *)
Definition run_all (env : Env) (acts : list Activation) (s : State) : State :=
  foldl (fun s a => activate_from env a s) s acts.

(** The hook states a mounted component can be in when an activation
    starts: the initial one, or the one left by an earlier activation
    (whatever the table held then). *)
Inductive reachable (env : Env) : HookState -> Prop :=
| reachable_mount : reachable env mount
| reachable_activate h a db :
    reachable env h -> reachable env (hook (activate env a h db)).

(** ** Reading traces *)

Definition is_external (e : Event) : bool :=
  match e with
  | CreateClient _ _ | SetSession _ _ _ | SelectSingle _ _ _ _ _ _
  | Initialize _ _ | Upsert _ _ _ _ _ _ => true
  | _ => false
  end.

Definition is_select (e : Event) : bool :=
  match e with SelectSingle _ _ _ _ _ _ => true | _ => false end.

Definition is_initialize (e : Event) : bool :=
  match e with Initialize _ _ => true | _ => false end.

Definition is_upsert (e : Event) : bool :=
  match e with Upsert _ _ _ _ _ _ => true | _ => false end.

Definition is_setError (e : Event) : bool :=
  match e with SetError _ => true | _ => false end.

Definition count (p : Event -> bool) (l : list Event) : nat :=
  length (List.filter p l).

(** The values passed to [setLoading], in order. *)
Definition loading_writes (l : list Event) : list bool :=
  omap (fun e => match e with SetLoading b => Some b | _ => None end) l.

(** The successive values of the [loading] cell during an activation
    that starts in [h] and produces the trace [l]. *)
Definition loading_history (h : HookState) (l : list Event) : list bool :=
  loading h :: loading_writes l.

(** Number of steps from [true] to [false], and from [false] to [true],
    in a history. *)
Fixpoint falls (l : list bool) : nat :=
  match l with
  | true :: (false :: _) as t => S (falls t)
  | _ :: t => falls t
  | [] => 0
  end.

Fixpoint rises (l : list bool) : nat :=
  match l with
  | false :: (true :: _) as t => S (rises t)
  | _ :: t => rises t
  | [] => 0
  end.

(** The four required query parameters, and the test of line 27. *)
Definition required : list string :=
  ["supabaseUrl"; "supabaseKey"; "accessToken"; "refreshToken"].

Definition has_all_parameters (env : Env) : bool :=
  forallb (fun name => truthy (params_get (search env) name)) required.

(** The calls made to the client library, to the table and to the
    callback during an activation. *)
Definition external_calls (l : list Event) : list Event := List.filter is_external l.

Definition is_gate (e : Event) : bool := is_initialize e || is_upsert e.

(** A callback that leaves the [app_installations] table alone. *)
Definition keeps_table (cb : Callback) : Prop :=
  forall c db, snd (cb c db) = db.

(** A world in which a failing lookup does not report the "no rows"
    sentinel: [PGRST116] is only answered when the row is missing. *)
Definition sentinel_means_no_row (w : World) : Prop :=
  forall code m, select_fails w = Some (code, m) -> code <> "PGRST116".

(** The initial state of a mounted hook over the table [db]. *)
Definition mounted (db : gmap string bool) : State :=
  {| hook := mount; store := db; log := [] |}.

(** ** Concrete pages, worlds and activations used in the examples *)

Module Examples.

Definition query : list (string * string) :=
  [("supabaseUrl", "https://xyz.supabase.co"); ("supabaseKey", "anon-key");
   ("accessToken", "access"); ("refreshToken", "refresh")].

(** The iframe as the OS opens it; nothing global is called [appID]. *)
Definition page : Env := {| search := query; global_appID := None |}.

(** The same page inside a host document that declares a global
    [appID] equal to the application's identifier. *)
Definition page_with_global : Env :=
  {| search := query; global_appID := Some "my-app" |}.

(** A page opened without the refresh token, and one with an empty
    access token. *)
Definition page_no_refresh : Env :=
  {| search := [("supabaseUrl", "https://xyz.supabase.co"); ("supabaseKey", "anon-key");
                ("accessToken", "access")];
     global_appID := Some "my-app" |}.

Definition page_empty_access : Env :=
  {| search := [("supabaseUrl", "https://xyz.supabase.co"); ("supabaseKey", "anon-key");
                ("accessToken", ""); ("refreshToken", "refresh")];
     global_appID := Some "my-app" |}.

(** Every outside call answers normally. *)
Definition fine : World :=
  {| createClient_throws := None; setSession_rejects := None;
     select_fails := None; upsert_fails := None |}.

Definition upsert_denied : World :=
  {| createClient_throws := None; setSession_rejects := None;
     select_fails := None;
     upsert_fails := Some ("42501", "new row violates row-level security policy") |}.

Definition select_denied : World :=
  {| createClient_throws := None; setSession_rejects := None;
     select_fails := Some ("PGRST301", "JWT expired");
     upsert_fails := None |}.

Definition boom : value := VError "Error" "create_table_if_not_exists failed".

Definition failing_callback : Callback := fun _ db => (Some boom, db).

Definition client : value :=
  VClient (VStr "https://xyz.supabase.co") (VStr "anon-key").

(** [useSupabase({ appId: 'my-app' })] *)
Definition my_app (w : World) (cb : Callback) : Activation :=
  {| world := w; appId := "my-app"; initialize := cb |}.

Definition installed : gmap string bool := {["my-app" := true]}.

End Examples.

(** ** Further vocabulary for traces and activations *)

(** The five calls [setupClient] makes to the outside, by kind. *)
Inductive Kind : Type :=
| KCreateClient | KSetSession | KSelect | KInitialize | KUpsert.

Definition kind_of (e : Event) : option Kind :=
  match e with
  | CreateClient _ _ => Some KCreateClient
  | SetSession _ _ _ => Some KSetSession
  | SelectSingle _ _ _ _ _ _ => Some KSelect
  | Initialize _ _ => Some KInitialize
  | Upsert _ _ _ _ _ _ => Some KUpsert
  | _ => None
  end.

Definition call_kinds (l : list Event) : list Kind := omap kind_of l.

(** The client object a call is made on (or, for the callback, passed). *)
Definition client_of (e : Event) : option value :=
  match e with
  | SetSession c _ _ | SelectSingle c _ _ _ _ _ | Initialize c _
  | Upsert c _ _ _ _ _ => Some c
  | _ => None
  end.

(** The calls to the four [useState] setters, in order. *)
Definition setter_calls (l : list Event) : list Event :=
  List.filter (fun e => negb (is_external e)) l.

(** Every value handed to [setError] in a trace is truthy (an error
    object, a non-empty string, ...). *)
Definition errors_truthy (l : list Event) : bool :=
  forallb (fun e => match e with SetError v => truthy v | _ => true end) l.

(** A world in which no outside call fails. *)
Definition fault_free (w : World) : Prop :=
  createClient_throws w = None /\ setSession_rejects w = None /\
  select_fails w = None /\ upsert_fails w = None.

(** A callback that returns normally and leaves the table alone. *)
Definition returns_quietly (cb : Callback) : Prop :=
  forall c db, cb c db = (None, db).

(** The values passed to [setError], in order. *)
Definition error_writes (l : list Event) : list value :=
  omap (fun e => match e with SetError v => Some v | _ => None end) l.

(** ** The components of the README *)

(** What a component of the README renders. *)
Inductive View : Type :=
| ShowLoading
| ShowError (err : value)
| ShowInitializing
| ShowApp (client : value).

(** README, "Basic Example":
    [if (loading) return <div>Loading...</div>;
     if (error) return <div>Error: {error.message}</div>;]
    and then the application, whose handler calls [supabase.from]. *)
Definition App (h : HookState) : View :=
  if loading h then ShowLoading
  else if truthy (error h) then ShowError (error h)
  else ShowApp (supabase h).

(** README, "With Custom Initialization": the same two tests, then
    [if (!isInitialized) return <div>Initializing...</div>;]. *)
Definition AgentChatApp (h : HookState) : View :=
  if loading h then ShowLoading
  else if truthy (error h) then ShowError (error h)
  else if negb (isInitialized h) then ShowInitializing
  else ShowApp (supabase h).

(** * Properties *)

(** ** Running [setupClient] symbolically *)

Ltac unfold_setup :=
  cbv [activate activate_from setupClient try_catch_finally when createClient
       setSession read_appID from_select_eq_single select_single call_initialize
       from_upsert setSupabase setError setLoading setIsInitialized emit
       set_hook throw mbind mret M_bind M_ret].

(** One branch point of [setupClient], taken in program order. *)
Ltac path_step :=
  match goal with
  | |- context [truthy (params_get ?l ?n)] =>
      destruct (truthy (params_get l n)) eqn:?
  | |- context [createClient_throws ?w] => destruct (createClient_throws w) eqn:?
  | |- context [setSession_rejects ?w] => destruct (setSession_rejects w) eqn:?
  | |- context [global_appID ?e] => destruct (global_appID e) eqn:?
  | |- context [select_fails ?w] => destruct (select_fails w) as [[? ?]|] eqn:?
  | |- context [String.eqb ?c "PGRST116"] => destruct (String.eqb c "PGRST116") eqn:?
  | |- context [@lookup _ _ (gmap string bool) _ ?k ?m] =>
      is_var m; destruct (@lookup _ _ (gmap string bool) _ k m) as [[|]|] eqn:?
  | |- context [initialize ?a ?c ?d] => destruct (initialize a c d) as [[?|] ?] eqn:?
  | |- context [upsert_fails ?w] => destruct (upsert_fails w) as [[? ?]|] eqn:?
  end.

Ltac setup_paths := unfold_setup; simpl; repeat (path_step; simpl).

(** An activation only appends to the trace; what it does to the hook
    state and to the table does not depend on the trace so far. *)
Lemma activate_from_frame env a s :
  activate_from env a s =
  let r := activate env a (hook s) (store s) in
  {| hook := hook r; store := store r; log := log s ++ log r |}.
Proof.
  destruct s as [h db l]. setup_paths;
    rewrite <- ?app_assoc; reflexivity.
Qed.

(** [setupClient] never reads the hook state: the calls it makes and what
    it does to the table are the same in a fresh mount and in a hook that
    has been activated before. *)
Lemma activate_ignores_hook env a h h' db :
  log (activate env a h db) = log (activate env a h' db) /\
  store (activate env a h db) = store (activate env a h' db).
Proof. setup_paths; done. Qed.

(** [setupClient] itself never rejects: whatever is thrown inside is
    caught, and the two setters of the handler and of the [finally]
    block do not throw. *)
Lemma setupClient_returns env a s :
  fst (setupClient env (world a) (appId a) (initialize a) s) = Normal tt.
Proof. destruct s; setup_paths; reflexivity. Qed.

(** *** The validation of line 27 *)

Lemma has_all_parameters_false env :
  has_all_parameters env = false <->
  exists name, In name required /\ truthy (params_get (search env) name) = false.
Proof.
  unfold has_all_parameters. split.
  - intros H. apply not_true_iff_false in H.
    rewrite forallb_forall in H.
    destruct (existsb (fun n => negb (truthy (params_get (search env) n))) required) eqn:E.
    + apply existsb_exists in E as (n & Hn & Ht). exists n. split; [done|].
      by apply negb_true_iff.
    + exfalso. apply H. intros n Hn.
      destruct (truthy (params_get (search env) n)) eqn:Ht; [done|].
      assert (existsb (fun n => negb (truthy (params_get (search env) n))) required = true)
        as E' by (apply existsb_exists; exists n; by rewrite Ht).
      congruence.
  - intros (n & Hn & Ht). apply not_true_iff_false. intros H.
    rewrite forallb_forall in H. specialize (H n Hn). congruence.
Qed.

(** When a required parameter is missing or empty, the activation
    throws at line 28: it sets [error] and [loading] and nothing else. *)
Lemma activate_invalid env a h db :
  has_all_parameters env = false ->
  activate env a h db =
  {| hook := {| supabase := supabase h; error := missing_parameters;
                loading := false; isInitialized := isInitialized h |};
     store := db;
     log := [SetError missing_parameters; SetLoading false] |}.
Proof.
  unfold has_all_parameters, required. simpl. intros H.
  unfold_setup; simpl.
  destruct (truthy (params_get (search env) "supabaseUrl")),
           (truthy (params_get (search env) "supabaseKey")),
           (truthy (params_get (search env) "accessToken")),
           (truthy (params_get (search env) "refreshToken"));
    simpl in *; try discriminate; reflexivity.
Qed.

(** In a page whose query string lacks a parameter, no activation ever
    stores a client. *)
Lemma reachable_invalid env h :
  has_all_parameters env = false ->
  reachable env h -> supabase h = VNull /\ isInitialized h = false.
Proof.
  intros Hinv. induction 1 as [|h a db _ [IHs IHi]]; [done|].
  rewrite activate_invalid by done. done.
Qed.

(** ** Missing and empty parameters (C1, C10) *)

(** C1 (as amended). When one of the four query parameters
    [supabaseUrl], [supabaseKey], [accessToken], [refreshToken] is
    absent, the activation ends with the non-null
    missing-required-parameters error and makes no external call: no
    client is constructed, no session assigned, no row looked up or
    upserted, and the table is untouched.  It does not set the client
    handle nor [isInitialized], which stay what they were: the client is
    [null] in the first activation after mount, and in every activation
    of a hook whose page has had this query string throughout; it is
    still the earlier client when an earlier activation, under a
    complete query string, had stored one. *)
Theorem C1_missing_parameter env name a h db :
  In name required ->
  params_get (search env) name = VNull ->
  error (hook (activate env a h db)) = missing_parameters /\
  is_null (error (hook (activate env a h db))) = false /\
  external_calls (log (activate env a h db)) = [] /\
  store (activate env a h db) = db /\
  supabase (hook (activate env a h db)) = supabase h /\
  isInitialized (hook (activate env a h db)) = isInitialized h /\
  supabase (hook (activate env a mount db)) = VNull /\
  (reachable env h -> supabase (hook (activate env a h db)) = VNull).
Proof.
  intros Hname Habsent.
  assert (has_all_parameters env = false) as Hinv.
  { apply has_all_parameters_false. exists name. by rewrite Habsent. }
  rewrite !activate_invalid by done. simpl. split_and!; try done.
  intros Hreach. by destruct (reachable_invalid env h Hinv Hreach).
Qed.

Lemma C1_missing_parameter_witness :
  let s := activate Examples.page_no_refresh
             (Examples.my_app Examples.fine defaultInitialize) mount ∅ in
  error (hook s) = missing_parameters /\
  is_null (error (hook s)) = false /\
  external_calls (log s) = [] /\
  store s = ∅ /\
  supabase (hook s) = supabase mount /\
  isInitialized (hook s) = isInitialized mount /\
  supabase (hook s) = VNull /\
  (reachable Examples.page_no_refresh mount -> supabase (hook s) = VNull).
Proof.
  apply (C1_missing_parameter Examples.page_no_refresh "refreshToken").
  - simpl. auto.
  - reflexivity.
Defined.

(** C1 as the specification states it fails when the query string
    changes between two activations of the same mounted hook (line 20
    reads [window.location.search] anew on every run): the first
    activation, under a complete query string, stores a client; the
    second, run after the refresh token has gone from the query string,
    ends with the missing-required-parameters error while the client
    handle is still the client of the first. *)
Lemma C1_counterexample :
  let h1 := hook (activate Examples.page_with_global
                    (Examples.my_app Examples.fine defaultInitialize)
                    mount Examples.installed) in
  let s2 := activate Examples.page_no_refresh
              (Examples.my_app Examples.fine Examples.failing_callback)
              h1 Examples.installed in
  params_get (search Examples.page_no_refresh) "refreshToken" = VNull /\
  error (hook s2) = missing_parameters /\
  supabase (hook s2) = Examples.client /\
  is_null (supabase (hook s2)) = false.
Proof. vm_compute. done. Qed.

(** C10 (as amended). A parameter that is present in the query string
    but bound to the empty string is treated like an absent one (line 27
    tests falsiness): the activation is the very one that an absent
    parameter gives.  It ends with the missing-required-parameters error
    and makes no external call; it does not set the client handle, which
    stays what it was: [null] in the first activation after mount and in
    every activation of a hook whose page has had this query string
    throughout, the earlier client when an earlier activation under a
    complete query string had stored one. *)
Theorem C10_empty_parameter env name a h db :
  In name required ->
  params_get (search env) name = VStr "" ->
  error (hook (activate env a h db)) = missing_parameters /\
  external_calls (log (activate env a h db)) = [] /\
  store (activate env a h db) = db /\
  supabase (hook (activate env a h db)) = supabase h /\
  isInitialized (hook (activate env a h db)) = isInitialized h /\
  supabase (hook (activate env a mount db)) = VNull /\
  (reachable env h -> supabase (hook (activate env a h db)) = VNull) /\
  (forall env', params_get (search env') name = VNull ->
     activate env a h db = activate env' a h db).
Proof.
  intros Hname Hempty.
  assert (has_all_parameters env = false) as Hinv.
  { apply has_all_parameters_false. exists name. by rewrite Hempty. }
  rewrite !activate_invalid by done. simpl. split_and!; try done.
  - intros Hreach. by destruct (reachable_invalid env h Hinv Hreach).
  - intros env' Habsent. rewrite (activate_invalid env'); [done|].
    apply has_all_parameters_false. exists name. by rewrite Habsent.
Qed.

Lemma C10_empty_parameter_witness :
  let s := activate Examples.page_empty_access
             (Examples.my_app Examples.fine defaultInitialize) mount ∅ in
  error (hook s) = missing_parameters /\
  external_calls (log s) = [] /\
  store s = ∅ /\
  supabase (hook s) = supabase mount /\
  isInitialized (hook s) = isInitialized mount /\
  supabase (hook s) = VNull /\
  (reachable Examples.page_empty_access mount -> supabase (hook s) = VNull) /\
  (forall env', params_get (search env') "accessToken" = VNull ->
     s = activate env' (Examples.my_app Examples.fine defaultInitialize) mount ∅).
Proof.
  apply (C10_empty_parameter Examples.page_empty_access "accessToken").
  - simpl. auto.
  - reflexivity.
Defined.

(** C10 as the specification states it fails in the same way as C1:
    after an activation under a complete query string has stored a
    client, an activation run when the access token of the query string
    has become empty ends with the missing-required-parameters error
    while the client handle is still that client. *)
Lemma C10_counterexample :
  let h1 := hook (activate Examples.page_with_global
                    (Examples.my_app Examples.fine defaultInitialize)
                    mount Examples.installed) in
  let s2 := activate Examples.page_empty_access
              (Examples.my_app Examples.fine Examples.failing_callback)
              h1 Examples.installed in
  params_get (search Examples.page_empty_access) "accessToken" = VStr "" /\
  error (hook s2) = missing_parameters /\
  supabase (hook s2) = Examples.client /\
  is_null (supabase (hook s2)) = false.
Proof. vm_compute. done. Qed.

(** ** The initialization gate (C3, C5, C6) *)

(** Closes a branch of [setupClient] on which the event assumed to be in
    the trace does not occur. *)
Ltac absent_event H :=
  simpl in H; repeat destruct H as [H|H]; try discriminate H; try contradiction.

(** C3. In every activation whose installation-record lookup returns a
    row already flagged initialized (which requires all four parameters
    to be present), the callback is never invoked, no upsert is
    performed, the table is left as it was, and the activation ends with
    [isInitialized = true], the client stored and [loading = false]. *)
Theorem C3_already_initialized env a h db c table columns column key err :
  In (SelectSingle c table columns column key
        {| data := VRow (VBool true); resp_error := err |})
     (log (activate env a h db)) ->
  has_all_parameters env = true /\
  count is_initialize (log (activate env a h db)) = 0 /\
  count is_upsert (log (activate env a h db)) = 0 /\
  store (activate env a h db) = db /\
  isInitialized (hook (activate env a h db)) = true /\
  supabase (hook (activate env a h db)) = c /\
  loading (hook (activate env a h db)) = false.
Proof.
  unfold has_all_parameters, required, count.
  setup_paths; intros H; absent_event H.
  injection H as <- _ _ _ _ _.
  repeat match goal with E : truthy _ = true |- _ => rewrite E; clear E end.
  done.
Qed.

Lemma C3_already_initialized_witness :
  has_all_parameters Examples.page_with_global = true /\
  count is_initialize
    (log (activate Examples.page_with_global
            (Examples.my_app Examples.fine Examples.failing_callback)
            mount Examples.installed)) = 0 /\
  count is_upsert
    (log (activate Examples.page_with_global
            (Examples.my_app Examples.fine Examples.failing_callback)
            mount Examples.installed)) = 0 /\
  store (activate Examples.page_with_global
            (Examples.my_app Examples.fine Examples.failing_callback)
            mount Examples.installed) = Examples.installed /\
  isInitialized (hook (activate Examples.page_with_global
            (Examples.my_app Examples.fine Examples.failing_callback)
            mount Examples.installed)) = true /\
  supabase (hook (activate Examples.page_with_global
            (Examples.my_app Examples.fine Examples.failing_callback)
            mount Examples.installed)) = Examples.client /\
  loading (hook (activate Examples.page_with_global
            (Examples.my_app Examples.fine Examples.failing_callback)
            mount Examples.installed)) = false.
Proof.
  apply (C3_already_initialized Examples.page_with_global
           (Examples.my_app Examples.fine Examples.failing_callback)
           mount Examples.installed Examples.client
           "app_installations" "initialized" "app_id" "my-app" VNull).
  vm_compute. do 2 right. left. reflexivity.
Defined.

(** C5 (as amended). In every activation in which the callback throws,
    no upsert of the installation record is performed (the table is
    exactly what the callback left), the thrown value becomes the hook's
    [error], which is non-null unless [null] itself was thrown, the
    client is not stored, and [isInitialized] keeps the value it had
    when the activation started: [false] in a hook in which no earlier
    activation has succeeded, in particular in the first activation
    after mount, and [true] when an earlier one has. *)
Theorem C5_callback_throws env a h db c v :
  In (Initialize c (Some v)) (log (activate env a h db)) ->
  count is_upsert (log (activate env a h db)) = 0 /\
  store (activate env a h db) = snd (initialize a c db) /\
  error (hook (activate env a h db)) = v /\
  is_null (error (hook (activate env a h db))) = is_null v /\
  (v <> VNull -> error (hook (activate env a h db)) <> VNull) /\
  isInitialized (hook (activate env a h db)) = isInitialized h /\
  (isInitialized h = false -> isInitialized (hook (activate env a h db)) = false) /\
  supabase (hook (activate env a h db)) = supabase h /\
  loading (hook (activate env a h db)) = false.
Proof.
  unfold count.
  setup_paths; intros H; absent_event H;
    injection H as <- <-; repeat split; congruence.
Qed.

Lemma C5_callback_throws_witness :
  let s := activate Examples.page_with_global
             (Examples.my_app Examples.fine Examples.failing_callback) mount ∅ in
  count is_upsert (log s) = 0 /\
  store s = snd (Examples.failing_callback Examples.client ∅) /\
  error (hook s) = Examples.boom /\
  is_null (error (hook s)) = is_null Examples.boom /\
  (Examples.boom <> VNull -> error (hook s) <> VNull) /\
  isInitialized (hook s) = isInitialized mount /\
  (isInitialized mount = false -> isInitialized (hook s) = false) /\
  supabase (hook s) = supabase mount /\
  loading (hook s) = false.
Proof.
  apply (C5_callback_throws Examples.page_with_global
           (Examples.my_app Examples.fine Examples.failing_callback)
           mount ∅ Examples.client Examples.boom).
  vm_compute. do 3 right. left. reflexivity.
Defined.

(** C5 as the specification states it fails for an activation that
    follows a successful one in the same mounted hook.  In a document
    whose global [appID] is ['other-app'], the first activation of
    [useSupabase({ appId: 'my-app' })] finds no row of ['other-app'],
    runs the callback, upserts the row of ['my-app'] and sets
    [isInitialized]; the second, run with a new [initialize], again finds
    no row of ['other-app'] and runs the callback, which throws: the
    thrown value becomes [error], nothing is upserted, and
    [isInitialized] is still [true].  The same happens with the global
    [appID] equal to ['my-app'] when the record that the first activation
    found flagged has been removed from the table before the second. *)
Lemma C5_counterexample :
  let env := {| search := Examples.query; global_appID := Some "other-app" |} in
  let s1 := activate env (Examples.my_app Examples.fine defaultInitialize) mount ∅ in
  let s2 := activate env (Examples.my_app Examples.fine Examples.failing_callback)
              (hook s1) (store s1) in
  let s3 := activate Examples.page_with_global
              (Examples.my_app Examples.fine defaultInitialize) mount Examples.installed in
  let s4 := activate Examples.page_with_global
              (Examples.my_app Examples.fine Examples.failing_callback) (hook s3) ∅ in
  isInitialized (hook s1) = true /\
  In (Initialize Examples.client (Some Examples.boom)) (log s2) /\
  count is_upsert (log s2) = 0 /\
  error (hook s2) = Examples.boom /\
  isInitialized (hook s2) = true /\
  isInitialized (hook s3) = true /\
  In (Initialize Examples.client (Some Examples.boom)) (log s4) /\
  error (hook s4) = Examples.boom /\
  isInitialized (hook s4) = true.
Proof. vm_compute. auto 15. Qed.

(** C6. In every activation whose installation-record lookup answers
    with an error other than the "no rows found" sentinel [PGRST116],
    that error becomes the hook's (non-null) [error], the callback is
    never invoked, nothing is upserted, and neither the client nor
    [isInitialized] is set. *)
Theorem C6_lookup_error env a h db c table columns column key d code message :
  In (SelectSingle c table columns column key
        {| data := d; resp_error := VPgError code message |})
     (log (activate env a h db)) ->
  code <> "PGRST116" ->
  error (hook (activate env a h db)) = VPgError code message /\
  is_null (error (hook (activate env a h db))) = false /\
  count is_initialize (log (activate env a h db)) = 0 /\
  count is_upsert (log (activate env a h db)) = 0 /\
  store (activate env a h db) = db /\
  supabase (hook (activate env a h db)) = supabase h /\
  isInitialized (hook (activate env a h db)) = isInitialized h.
Proof.
  unfold count.
  setup_paths; intros H Hcode; absent_event H;
    injection H as <- _ _ _ _ _ <- <-;
    try done;
    match goal with
    | E : String.eqb _ "PGRST116" = true |- _ => apply String.eqb_eq in E; done
    | _ => idtac
    end.
Qed.

Lemma C6_lookup_error_witness :
  error (hook (activate Examples.page_with_global
            (Examples.my_app Examples.select_denied defaultInitialize) mount ∅))
    = VPgError "PGRST301" "JWT expired" /\
  is_null (error (hook (activate Examples.page_with_global
            (Examples.my_app Examples.select_denied defaultInitialize) mount ∅)))
    = false /\
  count is_initialize
    (log (activate Examples.page_with_global
            (Examples.my_app Examples.select_denied defaultInitialize) mount ∅)) = 0 /\
  count is_upsert
    (log (activate Examples.page_with_global
            (Examples.my_app Examples.select_denied defaultInitialize) mount ∅)) = 0 /\
  store (activate Examples.page_with_global
            (Examples.my_app Examples.select_denied defaultInitialize) mount ∅) = ∅ /\
  supabase (hook (activate Examples.page_with_global
            (Examples.my_app Examples.select_denied defaultInitialize) mount ∅))
    = VNull /\
  isInitialized (hook (activate Examples.page_with_global
            (Examples.my_app Examples.select_denied defaultInitialize) mount ∅))
    = false.
Proof.
  apply (C6_lookup_error Examples.page_with_global
           (Examples.my_app Examples.select_denied defaultInitialize)
           mount ∅ Examples.client
           "app_installations" "initialized" "app_id" "my-app" VNull).
  - vm_compute. do 2 right. left. reflexivity.
  - discriminate.
Defined.

(** ** The key of the lookup (C2) *)

(** C2 (fails on the code). With all four parameters present, the
    installation record of ['my-app'] flagged initialized, and nothing
    global called [appID], the activation of
    [useSupabase({ appId: 'my-app' })] sends no lookup at all: evaluating
    the argument [appID] of [.eq('app_id', appID)] throws a
    [ReferenceError], which becomes the hook's error.  In a document
    whose global [appID] is ['other-app'], the lookup reads the row of
    ['other-app'], finds none, runs the callback and upserts the row of
    ['my-app'], although that row was already flagged. *)
Theorem C2_lookup_reads_free_identifier :
  has_all_parameters Examples.page = true /\
  error (hook (activate Examples.page
                 (Examples.my_app Examples.fine defaultInitialize)
                 mount Examples.installed))
    = VError "ReferenceError" "appID is not defined" /\
  count is_select (log (activate Examples.page
                 (Examples.my_app Examples.fine defaultInitialize)
                 mount Examples.installed)) = 0 /\
  isInitialized (hook (activate Examples.page
                 (Examples.my_app Examples.fine defaultInitialize)
                 mount Examples.installed)) = false /\
  List.filter (fun e => is_select e || is_initialize e || is_upsert e)
    (log (activate {| search := Examples.query; global_appID := Some "other-app" |}
            (Examples.my_app Examples.fine defaultInitialize)
            mount Examples.installed))
  = [SelectSingle Examples.client "app_installations" "initialized" "app_id" "other-app"
       {| data := VNull;
          resp_error := VPgError "PGRST116"
                          "JSON object requested, multiple (or no) rows returned" |};
     Initialize Examples.client None;
     Upsert Examples.client "app_installations" "my-app" true "app_id" VNull].
Proof. vm_compute. done. Qed.

(** ** First initialization (C4) *)

(** C4 (as amended). In every activation whose lookup yields the "no
    rows found" condition (treated as not yet initialized, not as an
    error), the callback is invoked exactly once, with the client that
    was constructed from the URL and key and given the session.  If the
    callback throws, nothing else happens to the table.  If it returns,
    the upsert of [{app_id: appId, initialized: true}] follows (callback
    first, upsert second); if the upsert reports an error the table and
    [isInitialized] stay as they were, and if it reports none the record
    of [appId] exists afterwards with its flag true, [isInitialized] is
    true and the client is stored. *)
Theorem C4_first_initialization env a h db c table columns column key message :
  In (SelectSingle c table columns column key
        {| data := VNull; resp_error := VPgError "PGRST116" message |})
     (log (activate env a h db)) ->
  c = VClient (params_get (search env) "supabaseUrl")
              (params_get (search env) "supabaseKey") /\
  In (SetSession c (params_get (search env) "accessToken")
                   (params_get (search env) "refreshToken"))
     (log (activate env a h db)) /\
  count is_initialize (log (activate env a h db)) = 1 /\
  match initialize a c db with
  | (Some v, db') =>
      List.filter is_gate (log (activate env a h db)) = [Initialize c (Some v)] /\
      store (activate env a h db) = db'
  | (None, db') =>
      match upsert_fails (world a) with
      | Some (code, m) =>
          List.filter is_gate (log (activate env a h db)) =
            [Initialize c None;
             Upsert c "app_installations" (appId a) true "app_id" (VPgError code m)] /\
          store (activate env a h db) = db' /\
          isInitialized (hook (activate env a h db)) = isInitialized h /\
          error (hook (activate env a h db)) = VPgError code m
      | None =>
          List.filter is_gate (log (activate env a h db)) =
            [Initialize c None;
             Upsert c "app_installations" (appId a) true "app_id" VNull] /\
          store (activate env a h db) = <[appId a := true]> db' /\
          store (activate env a h db) !! appId a = Some true /\
          isInitialized (hook (activate env a h db)) = true /\
          supabase (hook (activate env a h db)) = c
      end
  end.
Proof.
  unfold count.
  setup_paths; intros H; absent_event H;
    simplify_eq/=;
    repeat match goal with
      | E1 : initialize ?x ?y ?z = _, E2 : initialize ?x ?y ?z = _ |- _ =>
          rewrite E1 in E2; simplify_eq
      end;
    rewrite ?lookup_insert_eq; auto 10.
Qed.

Lemma C4_first_initialization_witness :
  Examples.client = VClient (params_get (search Examples.page_with_global) "supabaseUrl")
                            (params_get (search Examples.page_with_global) "supabaseKey") /\
  In (SetSession Examples.client
        (params_get (search Examples.page_with_global) "accessToken")
        (params_get (search Examples.page_with_global) "refreshToken"))
     (log (activate Examples.page_with_global
             (Examples.my_app Examples.fine defaultInitialize) mount ∅)) /\
  count is_initialize
     (log (activate Examples.page_with_global
             (Examples.my_app Examples.fine defaultInitialize) mount ∅)) = 1 /\
  List.filter is_gate
     (log (activate Examples.page_with_global
             (Examples.my_app Examples.fine defaultInitialize) mount ∅)) =
    [Initialize Examples.client None;
     Upsert Examples.client "app_installations" "my-app" true "app_id" VNull] /\
  store (activate Examples.page_with_global
             (Examples.my_app Examples.fine defaultInitialize) mount ∅)
    = <["my-app" := true]> ∅ /\
  store (activate Examples.page_with_global
             (Examples.my_app Examples.fine defaultInitialize) mount ∅) !! "my-app"
    = Some true /\
  isInitialized (hook (activate Examples.page_with_global
             (Examples.my_app Examples.fine defaultInitialize) mount ∅)) = true /\
  supabase (hook (activate Examples.page_with_global
             (Examples.my_app Examples.fine defaultInitialize) mount ∅))
    = Examples.client.
Proof.
  apply (C4_first_initialization Examples.page_with_global
           (Examples.my_app Examples.fine defaultInitialize) mount ∅
           Examples.client "app_installations" "initialized" "app_id" "my-app"
           "JSON object requested, multiple (or no) rows returned").
  vm_compute. do 2 right. left. reflexivity.
Defined.

(** C4 as the specification states it fails when the upsert is refused: all
    four parameters are present, no record of ['my-app'] exists, the
    lookup yields "no rows found", the callback runs once and returns,
    and yet no record of ['my-app'] exists afterwards. *)
Lemma C4_counterexample :
  has_all_parameters Examples.page_with_global = true /\
  (∅ : gmap string bool) !! "my-app" = None /\
  In (SelectSingle Examples.client "app_installations" "initialized" "app_id" "my-app"
        {| data := VNull;
           resp_error := VPgError "PGRST116"
                           "JSON object requested, multiple (or no) rows returned" |})
     (log (activate Examples.page_with_global
             (Examples.my_app Examples.upsert_denied defaultInitialize) mount ∅)) /\
  List.filter is_initialize
     (log (activate Examples.page_with_global
             (Examples.my_app Examples.upsert_denied defaultInitialize) mount ∅))
    = [Initialize Examples.client None] /\
  store (activate Examples.page_with_global
             (Examples.my_app Examples.upsert_denied defaultInitialize) mount ∅) !! "my-app"
    = None /\
  isInitialized (hook (activate Examples.page_with_global
             (Examples.my_app Examples.upsert_denied defaultInitialize) mount ∅))
    = false.
Proof. vm_compute. repeat split; auto. Qed.

(** ** The loading flag (C7) *)

(** Every path through [setupClient] calls [setLoading] exactly once,
    with [false], as its last action. *)
Lemma loading_written_once env a h db :
  loading_writes (log (activate env a h db)) = [false] /\
  last (log (activate env a h db)) = Some (SetLoading false) /\
  loading (hook (activate env a h db)) = false.
Proof. setup_paths; done. Qed.

(** C7 (as amended). In every activation, whatever its outcome,
    [setLoading] is called exactly once, with [false], at the very end:
    [loading] is [false] afterwards and never goes from [false] to
    [true].  The first activation of a mounted hook starts with
    [loading = true] and takes it to [false] exactly once.  Nothing sets
    [loading] back to [true] between activations, so an activation starts
    with [loading = true] only if none has completed before it; otherwise
    it starts and stays at [false] and no transition happens. *)
Theorem C7_loading env a h db a' db' :
  loading_writes (log (activate env a h db)) = [false] /\
  last (log (activate env a h db)) = Some (SetLoading false) /\
  loading (hook (activate env a h db)) = false /\
  rises (loading_history h (log (activate env a h db))) = 0 /\
  falls (loading_history h (log (activate env a h db))) = (if loading h then 1 else 0) /\
  loading_history mount (log (activate env a mount db)) = [true; false] /\
  loading (hook (activate env a' (hook (activate env a h db)) db')) = false /\
  falls (loading_history (hook (activate env a h db))
           (log (activate env a' (hook (activate env a h db)) db'))) = 0.
Proof.
  unfold loading_history.
  destruct (loading_written_once env a h db) as (Hw & Hlast & Hfin).
  destruct (loading_written_once env a mount db) as (Hw0 & _ & _).
  destruct (loading_written_once env a' (hook (activate env a h db)) db')
    as (Hw1 & _ & Hfin1).
  rewrite Hw, Hw0, Hw1, Hfin.
  repeat split; try done; by destruct (loading h).
Qed.

(** C7 as the specification states it fails for an activation that follows
    another one in the same mounted hook (here after [initialize] changed
    identity): the hook state left by the first is reachable, its
    [loading] is already [false] when the second activation starts, and
    the history of [loading] during the second, [false; false], contains
    no transition from [true] to [false]. *)
Lemma C7_counterexample :
  reachable Examples.page
    (hook (activate Examples.page
             (Examples.my_app Examples.fine defaultInitialize) mount ∅)) /\
  loading (hook (activate Examples.page
             (Examples.my_app Examples.fine defaultInitialize) mount ∅)) = false /\
  loading_history
    (hook (activate Examples.page
             (Examples.my_app Examples.fine defaultInitialize) mount ∅))
    (log (activate Examples.page
            (Examples.my_app Examples.fine Examples.failing_callback)
            (hook (activate Examples.page
                     (Examples.my_app Examples.fine defaultInitialize) mount ∅))
            ∅))
    = [false; false] /\
  falls [false; false] = 0.
Proof.
  split; [apply reachable_activate, reachable_mount|].
  vm_compute. done.
Qed.

(** ** The state an activation settles into (C9) *)

(** [isInitialized] and [supabase] are only ever set together, at the
    end of a successful activation. *)
Lemma reachable_initialized_iff_client env h :
  reachable env h -> isInitialized h = negb (is_null (supabase h)).
Proof.
  induction 1 as [|h a db _ IH]; [done|].
  revert IH. setup_paths; done.
Qed.

(** C9 (as amended). After any activation of a mounted hook completes,
    [loading] is [false] and [isInitialized] is true exactly when the
    client handle is non-null.  An activation that ends in an error
    stores the thrown value as [error] and leaves the client handle and
    [isInitialized] as they were before it, even when a client was
    constructed and its session assigned; an activation that ends without
    error stores a client and leaves [error] as it was.  After the first
    activation of a mounted hook, the client handle and the error are
    never both non-null, and exactly one of them is non-null unless the
    value thrown was [null] itself. *)
Theorem C9_terminal_state env a h db :
  reachable env h ->
  loading (hook (activate env a h db)) = false /\
  isInitialized (hook (activate env a h db))
    = negb (is_null (supabase (hook (activate env a h db)))) /\
  (forall v, In (SetError v) (log (activate env a h db)) ->
     error (hook (activate env a h db)) = v /\
     supabase (hook (activate env a h db)) = supabase h /\
     isInitialized (hook (activate env a h db)) = isInitialized h) /\
  (count is_setError (log (activate env a h db)) = 0 ->
     is_null (supabase (hook (activate env a h db))) = false /\
     error (hook (activate env a h db)) = error h) /\
  (is_null (supabase (hook (activate env a mount db))) = false ->
     is_null (error (hook (activate env a mount db))) = true) /\
  (~ In (SetError VNull) (log (activate env a mount db)) ->
     is_null (supabase (hook (activate env a mount db)))
       = negb (is_null (error (hook (activate env a mount db))))).
Proof.
  intros Hreach. split_and!.
  - apply loading_written_once.
  - apply (reachable_initialized_iff_client env), reachable_activate, Hreach.
  - intros v. clear Hreach.
    setup_paths; intros H; absent_event H; by injection H as <-.
  - clear Hreach. unfold count. setup_paths; done.
  - setup_paths; done.
  - setup_paths; intros H; try done;
      match goal with
      | |- true = negb (is_null ?e) => destruct e; try done; exfalso; apply H; auto 10
      end.
Qed.

Lemma C9_terminal_state_witness :
  let s := activate Examples.page
             (Examples.my_app Examples.fine defaultInitialize) mount ∅ in
  let s0 := activate Examples.page
             (Examples.my_app Examples.fine defaultInitialize) mount ∅ in
  loading (hook s) = false /\
  isInitialized (hook s) = negb (is_null (supabase (hook s))) /\
  (forall v, In (SetError v) (log s) ->
     error (hook s) = v /\
     supabase (hook s) = supabase mount /\
     isInitialized (hook s) = isInitialized mount) /\
  (count is_setError (log s) = 0 ->
     is_null (supabase (hook s)) = false /\ error (hook s) = error mount) /\
  (is_null (supabase (hook s0)) = false -> is_null (error (hook s0)) = true) /\
  (~ In (SetError VNull) (log s0) ->
     is_null (supabase (hook s0)) = negb (is_null (error (hook s0)))).
Proof.
  apply (C9_terminal_state Examples.page
           (Examples.my_app Examples.fine defaultInitialize) mount ∅).
  apply reachable_mount.
Defined.

(** C9 as the specification states it fails for an activation that follows a
    successful one in the same mounted hook: the first activation stores
    a client; the second (run again because [initialize] changed) has its
    lookup refused, and settles with the client of the first activation
    and the error of the second both non-null, and [isInitialized] still
    true. *)
Lemma C9_counterexample :
  let h1 := hook (activate Examples.page_with_global
                    (Examples.my_app Examples.fine defaultInitialize)
                    mount Examples.installed) in
  let s2 := activate Examples.page_with_global
              (Examples.my_app Examples.select_denied Examples.failing_callback)
              h1 Examples.installed in
  reachable Examples.page_with_global h1 /\
  In (SetError (VPgError "PGRST301" "JWT expired")) (log s2) /\
  supabase (hook s2) = Examples.client /\
  error (hook s2) = VPgError "PGRST301" "JWT expired" /\
  is_null (supabase (hook s2)) = false /\
  is_null (error (hook s2)) = false /\
  isInitialized (hook s2) = true.
Proof.
  split; [apply reachable_activate, reachable_mount|].
  vm_compute. auto 10.
Qed.

(** ** Executions of the callback across activations (C8) *)

Lemma count_app p l1 l2 : count p (l1 ++ l2) = count p l1 + count p l2.
Proof. unfold count. by rewrite List.filter_app, length_app. Qed.

(** No activation invokes the callback twice. *)
Lemma initialize_at_most_once env a h db :
  count is_initialize (log (activate env a h db)) <= 1.
Proof. unfold count. setup_paths; lia. Qed.

(** What one activation contributes when the lookup reads the record of
    the identifier: it does not run the callback and leaves the table
    alone; or it runs it, fails, and leaves the table alone; or it runs
    it, succeeds, and the record is flagged. *)
Lemma gate_step env id a h db :
  global_appID env = Some id ->
  appId a = id ->
  keeps_table (initialize a) ->
  sentinel_means_no_row (world a) ->
  (count is_initialize (log (activate env a h db)) = 0 /\
   count is_setError (log (activate env a h db)) <= 1 /\
   store (activate env a h db) = db) \/
  (count is_initialize (log (activate env a h db)) = 1 /\
   count is_setError (log (activate env a h db)) = 1 /\
   store (activate env a h db) = db /\
   db !! id <> Some true) \/
  (count is_initialize (log (activate env a h db)) = 1 /\
   count is_setError (log (activate env a h db)) = 0 /\
   store (activate env a h db) !! id = Some true /\
   db !! id <> Some true).
Proof.
  intros Hglobal Hid Hkeep Hsentinel. subst id. revert Hglobal.
  unfold count.
  setup_paths; intros Hglobal;
    try (left; split_and!; [done | lia | done]);
    repeat match goal with
      | E : initialize a ?c ?d = (_, ?g) |- _ =>
          assert (g = d) by (rewrite <- (Hkeep c d); by rewrite E); subst g; clear E
      | E : select_fails _ = Some (?c, _), E' : String.eqb ?c _ = true |- _ =>
          apply String.eqb_eq in E'; by apply Hsentinel in E
      end;
    simplify_eq;
    first [ right; left; split_and!; [done | done | done | congruence]
          | right; right; split_and!;
              [done | done | by rewrite lookup_insert_eq | congruence] ].
Qed.

(** Across activations for one identifier whose lookups read the record
    of that identifier: errors only accumulate; once the record is
    flagged the callback is not run again; and every run of the callback
    beyond the first is paid for by an activation that ended in error. *)
Lemma run_all_gate env id acts :
  global_appID env = Some id ->
  Forall (fun a => appId a = id /\ keeps_table (initialize a) /\
                   sentinel_means_no_row (world a)) acts ->
  forall s,
    count is_setError (log s) <= count is_setError (log (run_all env acts s)) /\
    (store s !! id = Some true ->
       count is_initialize (log (run_all env acts s)) = count is_initialize (log s)) /\
    count is_initialize (log (run_all env acts s)) + count is_setError (log s)
      <= count is_initialize (log s) + count is_setError (log (run_all env acts s)) + 1.
Proof.
  intros Hglobal. induction 1 as [|a acts (Hid & Hkeep & Hsent) _ IH]; intros s.
  - simpl. split_and!; [done | done | lia].
  - cbn [run_all foldl]. fold (run_all env acts (activate_from env a s)).
    destruct (IH (activate_from env a s)) as (IHerr & IHflag & IHcount).
    revert IHerr IHflag IHcount. rewrite activate_from_frame. cbn [log store].
    rewrite !count_app.
    destruct (gate_step env id a (hook s) (store s) Hglobal Hid Hkeep Hsent)
      as [(Hi & He & Hs) | [(Hi & He & Hs & Hno) | (Hi & He & Hs & Hno)]];
      rewrite Hi, ?Hs; intros IHerr IHflag IHcount.
    + split_and!; [lia | intros Hflag; rewrite IHflag by done; lia | lia].
    + split_and!; [lia | done | lia].
    + split_and!; [lia | done | rewrite IHflag by done; lia].
Qed.

(** C8 (as amended). In a sequence of activations for one identifier,
    each completing before the next starts, whose lookups read the record
    of that identifier and whose callbacks leave the [app_installations]
    table alone: no activation runs the callback more than once; once the
    record is flagged initialized no activation runs it; and the number
    of runs is at most one more than the number of activations that ended
    in an error (a run that throws, or whose upsert is refused, is
    repeated by the next activation). *)
Theorem C8_callback_runs env id acts db :
  global_appID env = Some id ->
  Forall (fun a => appId a = id /\ keeps_table (initialize a) /\
                   sentinel_means_no_row (world a)) acts ->
  (forall a h db', count is_initialize (log (activate env a h db')) <= 1) /\
  (db !! id = Some true ->
     count is_initialize (log (run_all env acts (mounted db))) = 0) /\
  count is_initialize (log (run_all env acts (mounted db)))
    <= count is_setError (log (run_all env acts (mounted db))) + 1.
Proof.
  intros Hglobal Hacts.
  destruct (run_all_gate env id acts Hglobal Hacts (mounted db)) as (_ & Hflag & Hcount).
  split_and!.
  - intros. apply initialize_at_most_once.
  - intros H. by rewrite Hflag.
  - cbn [mounted log] in Hcount.
    change (count is_setError []) with 0 in Hcount.
    change (count is_initialize []) with 0 in Hcount.
    fold (mounted db) in Hcount. lia.
Qed.

Lemma C8_callback_runs_witness :
  let acts := [Examples.my_app Examples.fine Examples.failing_callback;
               Examples.my_app Examples.upsert_denied defaultInitialize;
               Examples.my_app Examples.fine defaultInitialize;
               Examples.my_app Examples.fine Examples.failing_callback] in
  (forall a h db', count is_initialize
                     (log (activate Examples.page_with_global a h db')) <= 1) /\
  ((∅ : gmap string bool) !! "my-app" = Some true ->
     count is_initialize
       (log (run_all Examples.page_with_global acts (mounted ∅))) = 0) /\
  count is_initialize (log (run_all Examples.page_with_global acts (mounted ∅)))
    <= count is_setError (log (run_all Examples.page_with_global acts (mounted ∅))) + 1.
Proof.
  apply (C8_callback_runs Examples.page_with_global "my-app").
  - reflexivity.
  - repeat (apply List.Forall_cons;
      [split; [reflexivity
              | split; [intros c db; reflexivity | intros code m H; discriminate H]] | ]).
    apply List.Forall_nil.
Defined.

(** C8 as the specification states it fails when an activation's upsert is
    refused: the callback has run and returned, the record is not
    written, and the next activation for the same identifier runs the
    callback again, twice in total. *)
Lemma C8_counterexample :
  let acts := [Examples.my_app Examples.upsert_denied defaultInitialize;
               Examples.my_app Examples.fine defaultInitialize] in
  Forall (fun a => appId a = "my-app") acts /\
  List.filter is_initialize
    (log (run_all Examples.page_with_global acts (mounted ∅)))
    = [Initialize Examples.client None; Initialize Examples.client None] /\
  count is_initialize
    (log (run_all Examples.page_with_global acts (mounted ∅))) = 2.
Proof.
  split; [repeat constructor|].
  vm_compute. done.
Qed.

(** ** Two further facts about [setupClient] *)

(** X1. Whatever [appId] the caller passes, a lookup that an activation
    sends reads the [initialized] column of the [app_installations] row
    whose [app_id] equals the global binding of the identifier [appID];
    in a document with no such binding no lookup is sent. *)
Theorem X1_lookup_keyed_by_global env a h db c table columns column key r :
  In (SelectSingle c table columns column key r) (log (activate env a h db)) ->
  global_appID env = Some key /\
  table = "app_installations" /\ columns = "initialized" /\ column = "app_id".
Proof.
  setup_paths; intros H; absent_event H; by injection H as <- <- <- <- <- <-.
Qed.

Lemma X1_lookup_keyed_by_global_witness :
  global_appID {| search := Examples.query; global_appID := Some "other-app" |}
    = Some "other-app" /\
  "app_installations" = "app_installations" /\
  "initialized" = "initialized" /\ "app_id" = "app_id".
Proof.
  apply (X1_lookup_keyed_by_global
           {| search := Examples.query; global_appID := Some "other-app" |}
           (Examples.my_app Examples.fine defaultInitialize) mount Examples.installed
           Examples.client "app_installations" "initialized" "app_id" "other-app"
           {| data := VNull;
              resp_error := VPgError "PGRST116"
                              "JSON object requested, multiple (or no) rows returned" |}).
  vm_compute. do 2 right. left. reflexivity.
Defined.

(** X2. The promise returned by [setupClient] never rejects, and the
    [finally] block sets [loading] to [false] on every path.  Whatever
    the [try] block throws is caught and stored by [setError]: the
    [Error] of line 28, what [createClient] throws, what the promise of
    [setSession] rejects with, the [ReferenceError] of line 40, the
    [installError] of line 42, what the callback throws and the
    [upsertError] of line 56 each end up as the hook's [error], handed
    to [setError] in the one call made to it. *)
Theorem X2_setupClient_never_rejects env a h db :
  (forall s, fst (setupClient env (world a) (appId a) (initialize a) s) = Normal tt /\
             loading (hook (snd (setupClient env (world a) (appId a) (initialize a) s)))
               = false) /\
  (forall body s v s1,
     body s = (Throw v, s1) ->
     try_catch_finally body (fun err => setError err) (setLoading false) s =
     (Normal tt,
      {| hook := {| supabase := supabase (hook s1); error := v; loading := false;
                    isInitialized := isInitialized (hook s1) |};
         store := store s1;
         log := log s1 ++ [SetError v; SetLoading false] |})) /\
  (has_all_parameters env = false ->
     error_writes (log (activate env a h db)) = [missing_parameters] /\
     error (hook (activate env a h db)) = missing_parameters) /\
  (has_all_parameters env = true ->
   match createClient_throws (world a), setSession_rejects (world a),
         global_appID env with
   | Some e, _, _ | None, Some e, _ =>
       error_writes (log (activate env a h db)) = [e] /\
       error (hook (activate env a h db)) = e
   | None, None, None =>
       error_writes (log (activate env a h db))
         = [VError "ReferenceError" "appID is not defined"] /\
       error (hook (activate env a h db))
         = VError "ReferenceError" "appID is not defined"
   | None, None, Some _ => True
   end) /\
  (forall c table columns column key d code message,
     In (SelectSingle c table columns column key
           {| data := d; resp_error := VPgError code message |})
        (log (activate env a h db)) ->
     code <> "PGRST116" ->
     error_writes (log (activate env a h db)) = [VPgError code message] /\
     error (hook (activate env a h db)) = VPgError code message) /\
  (forall c v,
     In (Initialize c (Some v)) (log (activate env a h db)) ->
     error_writes (log (activate env a h db)) = [v] /\
     error (hook (activate env a h db)) = v) /\
  (forall c table id flag onConflict code message,
     In (Upsert c table id flag onConflict (VPgError code message))
        (log (activate env a h db)) ->
     error_writes (log (activate env a h db)) = [VPgError code message] /\
     error (hook (activate env a h db)) = VPgError code message).
Proof.
  split_and!.
  - intros s. split; [apply setupClient_returns|].
    destruct s; setup_paths; reflexivity.
  - intros body s v s1 E. unfold try_catch_finally. rewrite E.
    cbv [setError setLoading emit set_hook mbind mret M_bind M_ret]. simpl.
    by rewrite <- app_assoc.
  - intros Hinv. by rewrite activate_invalid.
  - unfold has_all_parameters, required, error_writes.
    setup_paths; intros Hvalid; try discriminate Hvalid;
      repeat match goal with
        | |- context [setSession_rejects ?w] => destruct (setSession_rejects w)
        | |- context [global_appID ?e] => destruct (global_appID e)
        end; done.
  - intros c table columns column key d code message. unfold error_writes.
    setup_paths; intros H Hcode; absent_event H; simplify_eq/=; try done;
      match goal with
      | E : String.eqb _ "PGRST116" = true |- _ => apply String.eqb_eq in E; done
      end.
  - intros c v. unfold error_writes.
    setup_paths; intros H; absent_event H; by simplify_eq/=.
  - intros c table id flag onConflict code message. unfold error_writes.
    setup_paths; intros H; absent_event H; by simplify_eq/=.
Qed.

(** In a document where nothing global is called [appID], no activation
    ever stores a client. *)
Lemma reachable_unbound env h :
  global_appID env = None ->
  reachable env h -> supabase h = VNull /\ isInitialized h = false.
Proof.
  intros Hunbound. induction 1 as [|h a db _ [IHs IHi]]; [done|].
  revert Hunbound IHs IHi. setup_paths; done.
Qed.

(** X3. In a document where nothing global is called [appID], no
    activation of a mounted hook sends the lookup, runs the callback,
    upserts, or stores a client: each one ends in an error with a null
    client and [isInitialized = false], and when the four parameters are
    present and the client is constructed and given its session, that
    error is the [ReferenceError] raised by line 40. *)
Theorem X3_unbound_appID_never_succeeds env a h db :
  global_appID env = None ->
  reachable env h ->
  count is_select (log (activate env a h db)) = 0 /\
  count is_initialize (log (activate env a h db)) = 0 /\
  count is_upsert (log (activate env a h db)) = 0 /\
  count is_setError (log (activate env a h db)) = 1 /\
  store (activate env a h db) = db /\
  supabase (hook (activate env a h db)) = VNull /\
  isInitialized (hook (activate env a h db)) = false /\
  (has_all_parameters env = true ->
   createClient_throws (world a) = None ->
   setSession_rejects (world a) = None ->
   error (hook (activate env a h db)) = VError "ReferenceError" "appID is not defined").
Proof.
  intros Hunbound Hreach.
  destruct (reachable_unbound env h Hunbound Hreach) as [Hs Hi].
  revert Hunbound Hs Hi. unfold has_all_parameters, required, count.
  setup_paths; intros; simplify_eq/=; done.
Qed.

Lemma X3_unbound_appID_never_succeeds_witness :
  let s := activate Examples.page
             (Examples.my_app Examples.fine defaultInitialize) mount Examples.installed in
  count is_select (log s) = 0 /\
  count is_initialize (log s) = 0 /\
  count is_upsert (log s) = 0 /\
  count is_setError (log s) = 1 /\
  store s = Examples.installed /\
  supabase (hook s) = VNull /\
  isInitialized (hook s) = false /\
  (has_all_parameters Examples.page = true ->
   createClient_throws Examples.fine = None ->
   setSession_rejects Examples.fine = None ->
   error (hook s) = VError "ReferenceError" "appID is not defined").
Proof.
  apply (X3_unbound_appID_never_succeeds Examples.page
           (Examples.my_app Examples.fine defaultInitialize) mount Examples.installed).
  - reflexivity.
  - apply reachable_mount.
Defined.

(** ** The order of the calls and of the state updates *)

(** X4. In every activation the calls to the outside come in the order
    of the source: their kinds form a prefix of [createClient],
    [setSession], the lookup, the callback, the upsert.  So the lookup is
    only sent after the session was assigned, the callback only runs
    after the lookup, and nothing is upserted unless the callback ran
    before.  Every one of these calls is made on the client built from
    the [supabaseUrl] and [supabaseKey] of the query string, and the
    session is assigned from its [accessToken] and [refreshToken]. *)
Theorem X4_calls_in_order env a h db :
  call_kinds (log (activate env a h db))
    `prefix_of` [KCreateClient; KSetSession; KSelect; KInitialize; KUpsert] /\
  count is_upsert (log (activate env a h db))
    <= count is_initialize (log (activate env a h db)) /\
  Forall (fun e => forall c, client_of e = Some c ->
            c = VClient (params_get (search env) "supabaseUrl")
                        (params_get (search env) "supabaseKey"))
         (log (activate env a h db)) /\
  Forall (fun e => forall c x y, e = SetSession c x y ->
            x = params_get (search env) "accessToken" /\
            y = params_get (search env) "refreshToken")
         (log (activate env a h db)).
Proof.
  unfold count, call_kinds.
  setup_paths; split_and!;
    try (eexists; reflexivity); try lia;
    repeat (apply List.Forall_cons; [intros; simplify_eq/=; done|]);
    apply List.Forall_nil.
Qed.

(** X5. The state setters are called only at the very end of an
    activation, after the last outside call (so no await separates them),
    and in one of two fixed sequences: [setError(err); setLoading(false)]
    when something was thrown, or [setIsInitialized(true);
    setSupabase(client); setLoading(false)] otherwise, which leaves
    [error] as it was.  So [setSupabase] is never called with [null],
    [setLoading] never with [true] and [setIsInitialized] never with
    [false]. *)
Theorem X5_setters_come_last env a h db :
  log (activate env a h db)
    = (external_calls (log (activate env a h db))
       ++ setter_calls (log (activate env a h db)))%list /\
  (setter_calls (log (activate env a h db))
     = [SetError (error (hook (activate env a h db))); SetLoading false] \/
   setter_calls (log (activate env a h db))
     = [SetIsInitialized true;
        SetSupabase (VClient (params_get (search env) "supabaseUrl")
                             (params_get (search env) "supabaseKey"));
        SetLoading false] /\
   supabase (hook (activate env a h db))
     = VClient (params_get (search env) "supabaseUrl")
               (params_get (search env) "supabaseKey") /\
   isInitialized (hook (activate env a h db)) = true /\
   error (hook (activate env a h db)) = error h).
Proof.
  unfold external_calls, setter_calls.
  setup_paths; split; first [reflexivity | by left | by right].
Qed.

(** ** What an activation does to the table *)

(** With a callback that leaves the table alone, an activation either
    leaves it alone too or flags the row of [appId]. *)
Lemma table_step env a h db :
  keeps_table (initialize a) ->
  store (activate env a h db) = db \/
  store (activate env a h db) = <[appId a := true]> db.
Proof.
  intros Hkeep.
  setup_paths;
    repeat match goal with
      | E : initialize a ?c ?d = (_, ?g) |- _ =>
          assert (g = d) by (rewrite <- (Hkeep c d); by rewrite E); subst g; clear E
      end; auto.
Qed.

Lemma run_all_cons env a acts s :
  run_all env (a :: acts) s = run_all env acts (activate_from env a s).
Proof. reflexivity. Qed.

Lemma store_activate_from env a s :
  store (activate_from env a s) = store (activate env a (hook s) (store s)).
Proof. by rewrite activate_from_frame. Qed.

Lemma run_all_store env acts :
  Forall (fun a => keeps_table (initialize a)) acts ->
  forall s,
    (forall k, store s !! k = Some true ->
       store (run_all env acts s) !! k = Some true) /\
    (forall k, is_Some (store s !! k) ->
       is_Some (store (run_all env acts s) !! k)) /\
    (forall k, Forall (fun a => appId a <> k) acts ->
       store (run_all env acts s) !! k = store s !! k).
Proof.
  induction 1 as [|a acts Ha _ IH]; intros s; [done|].
  rewrite run_all_cons. destruct (IH (activate_from env a s)) as (IH1 & IH2 & IH3).
  rewrite store_activate_from in IH1, IH2, IH3.
  destruct (table_step env a (hook s) (store s) Ha) as [E|E];
    rewrite E in IH1, IH2, IH3; split_and!; intros k Hk.
  - by apply IH1.
  - by apply IH2.
  - apply Forall_cons in Hk as [_ Hk]. by apply IH3.
  - apply IH1. destruct (decide (appId a = k)) as [->|Hne].
    + by rewrite lookup_insert_eq.
    + by rewrite lookup_insert_ne.
  - apply IH2. destruct (decide (appId a = k)) as [->|Hne].
    + by rewrite lookup_insert_eq.
    + by rewrite lookup_insert_ne.
  - apply Forall_cons in Hk as [Hne Hk]. rewrite (IH3 k Hk).
    by rewrite lookup_insert_ne.
Qed.

(** X6. Across any sequence of activations whose callbacks leave the
    [app_installations] table alone, the hook only ever adds or raises
    flags: a record flagged initialized stays flagged, a record that
    exists keeps existing, and the record of an identifier that none of
    the activations was given as [appId] is left exactly as it was. *)
Theorem X6_flags_only_raised env acts db :
  Forall (fun a => keeps_table (initialize a)) acts ->
  (forall k, db !! k = Some true ->
     store (run_all env acts (mounted db)) !! k = Some true) /\
  (forall k, is_Some (db !! k) ->
     is_Some (store (run_all env acts (mounted db)) !! k)) /\
  (forall k, Forall (fun a => appId a <> k) acts ->
     store (run_all env acts (mounted db)) !! k = db !! k).
Proof.
  intros Hkeep. exact (run_all_store env acts Hkeep (mounted db)).
Qed.

Lemma X6_flags_only_raised_witness :
  let acts := [Examples.my_app Examples.fine defaultInitialize;
               Examples.my_app Examples.upsert_denied Examples.failing_callback] in
  let db : gmap string bool := {["notes" := true; "mail" := false]} in
  (forall k, db !! k = Some true ->
     store (run_all Examples.page_with_global acts (mounted db)) !! k = Some true) /\
  (forall k, is_Some (db !! k) ->
     is_Some (store (run_all Examples.page_with_global acts (mounted db)) !! k)) /\
  (forall k, Forall (fun a => appId a <> k) acts ->
     store (run_all Examples.page_with_global acts (mounted db)) !! k = db !! k).
Proof.
  apply (X6_flags_only_raised Examples.page_with_global).
  repeat (apply List.Forall_cons; [intros c db; reflexivity|]).
  apply List.Forall_nil.
Defined.

(** ** A record that is present but not flagged *)

(** X7. When the lookup returns a row whose [initialized] column is
    [false], the activation treats it like a missing row: the callback
    is invoked exactly once; if it throws nothing is upserted; if it
    returns, [{app_id: appId, initialized: true}] is upserted, and when
    the upsert is accepted the record of [appId] is flagged and
    [isInitialized] is true.  The row the lookup read was that of the
    global [appID]. *)
Theorem X7_unflagged_record env a h db c table columns column key err :
  In (SelectSingle c table columns column key
        {| data := VRow (VBool false); resp_error := err |})
     (log (activate env a h db)) ->
  global_appID env = Some key /\
  db !! key = Some false /\
  count is_initialize (log (activate env a h db)) = 1 /\
  match initialize a c db with
  | (Some v, db') =>
      count is_upsert (log (activate env a h db)) = 0 /\
      store (activate env a h db) = db' /\
      error (hook (activate env a h db)) = v /\
      isInitialized (hook (activate env a h db)) = isInitialized h
  | (None, db') =>
      List.filter is_gate (log (activate env a h db)) =
        [Initialize c None;
         Upsert c "app_installations" (appId a) true "app_id"
           (match upsert_fails (world a) with
            | Some (code, m) => VPgError code m
            | None => VNull
            end)] /\
      match upsert_fails (world a) with
      | Some (code, m) =>
          store (activate env a h db) = db' /\
          error (hook (activate env a h db)) = VPgError code m /\
          isInitialized (hook (activate env a h db)) = isInitialized h
      | None =>
          store (activate env a h db) = <[appId a := true]> db' /\
          isInitialized (hook (activate env a h db)) = true /\
          supabase (hook (activate env a h db)) = c
      end
  end.
Proof.
  unfold count.
  setup_paths; intros H; absent_event H;
    simplify_eq/=;
    repeat match goal with
      | E1 : initialize ?x ?y ?z = _, E2 : initialize ?x ?y ?z = _ |- _ =>
          rewrite E1 in E2; simplify_eq
      end;
    auto 10.
Qed.

Lemma X7_unflagged_record_witness :
  let db : gmap string bool := {["my-app" := false]} in
  let s := activate Examples.page_with_global
             (Examples.my_app Examples.fine defaultInitialize) mount db in
  global_appID Examples.page_with_global = Some "my-app" /\
  db !! "my-app" = Some false /\
  count is_initialize (log s) = 1 /\
  List.filter is_gate (log s) =
    [Initialize Examples.client None;
     Upsert Examples.client "app_installations" "my-app" true "app_id" VNull] /\
  store s = <["my-app" := true]> db /\
  isInitialized (hook s) = true /\
  supabase (hook s) = Examples.client.
Proof.
  apply (X7_unflagged_record Examples.page_with_global
           (Examples.my_app Examples.fine defaultInitialize) mount
           {["my-app" := false]} Examples.client
           "app_installations" "initialized" "app_id" "my-app" VNull).
  vm_compute. do 2 right. left. reflexivity.
Defined.

(** ** When the client is constructed *)

Lemma params_get_cases l name :
  params_get l name = VNull \/ exists v, params_get l name = VStr v.
Proof.
  induction l as [|[k v] l IH]; simpl; [by left|].
  destruct (String.eqb k name); [right; by exists v | done].
Qed.

Lemma truthy_params_get l name :
  truthy (params_get l name) = true <->
  exists v, params_get l name = VStr v /\ v <> "".
Proof.
  destruct (params_get_cases l name) as [E|[v E]]; rewrite E; simpl.
  - split; [done | by intros (v & ? & _)].
  - split.
    + intros H. exists v. split; [done|]. intros ->. done.
    + intros (v' & [= <-] & Hne).
      destruct (String.eqb_spec v ""); [done | done].
Qed.

(** X8. The validation of line 27 passes exactly when each of the four
    names is bound, at its first occurrence in the query string, to a
    non-empty string; and exactly then the activation reaches the
    outside, its first action being [createClient] on the values of
    [supabaseUrl] and [supabaseKey].  A pair that repeats a name later in
    the query string is never looked at. *)
Theorem X8_client_constructed_iff_valid env a h db :
  (has_all_parameters env = true <->
   forall name, In name required ->
     exists v, params_get (search env) name = VStr v /\ v <> "") /\
  (has_all_parameters env = true <->
   head (log (activate env a h db))
     = Some (CreateClient (params_get (search env) "supabaseUrl")
                          (params_get (search env) "supabaseKey"))) /\
  (has_all_parameters env = false <->
   external_calls (log (activate env a h db)) = []) /\
  (forall name v rest,
     params_get ((name, v) :: rest) name = VStr v).
Proof.
  split_and!.
  - unfold has_all_parameters. rewrite forallb_forall.
    split; intros H name Hn; apply truthy_params_get; by apply H.
  - unfold has_all_parameters, required, external_calls.
    setup_paths; split; done.
  - unfold has_all_parameters, required, external_calls.
    setup_paths; split; done.
  - intros name v rest. simpl. by rewrite String.eqb_refl.
Qed.

(** ** When [isInitialized] is raised *)

(** X9. [setIsInitialized(true)] is only called after a flagged record
    has been read or written: either the lookup was answered from the
    table with the flagged row of the global [appID], in which case
    neither the callback nor the upsert ran and the table is untouched;
    or the callback returned, the upsert was accepted, and the record of
    [appId] is flagged in the table the activation leaves behind.  In
    both cases the client is stored with it. *)
Theorem X9_initialized_is_backed env a h db :
  In (SetIsInitialized true) (log (activate env a h db)) ->
  isInitialized (hook (activate env a h db)) = true /\
  is_null (supabase (hook (activate env a h db))) = false /\
  count is_setError (log (activate env a h db)) = 0 /\
  ((exists key, global_appID env = Some key /\ db !! key = Some true /\
                select_fails (world a) = None /\
                store (activate env a h db) = db /\
                count is_gate (log (activate env a h db)) = 0) \/
   (upsert_fails (world a) = None /\
    store (activate env a h db) !! appId a = Some true /\
    List.filter is_gate (log (activate env a h db)) =
      [Initialize (supabase (hook (activate env a h db))) None;
       Upsert (supabase (hook (activate env a h db)))
         "app_installations" (appId a) true "app_id" VNull])).
Proof.
  unfold count.
  setup_paths; intros H; absent_event H; split_and!; try done;
    first [ left; eexists; by split_and!
          | right; split_and!; [done | by rewrite lookup_insert_eq | done] ].
Qed.

Lemma X9_initialized_is_backed_witness :
  let s := activate Examples.page_with_global
             (Examples.my_app Examples.fine defaultInitialize) mount ∅ in
  isInitialized (hook s) = true /\
  is_null (supabase (hook s)) = false /\
  count is_setError (log s) = 0 /\
  ((exists key, global_appID Examples.page_with_global = Some key /\
                (∅ : gmap string bool) !! key = Some true /\
                select_fails Examples.fine = None /\
                store s = ∅ /\ count is_gate (log s) = 0) \/
   (upsert_fails Examples.fine = None /\
    store s !! "my-app" = Some true /\
    List.filter is_gate (log s) =
      [Initialize (supabase (hook s)) None;
       Upsert (supabase (hook s)) "app_installations" "my-app" true "app_id" VNull])).
Proof.
  apply (X9_initialized_is_backed Examples.page_with_global
           (Examples.my_app Examples.fine defaultInitialize) mount ∅).
  vm_compute. do 5 right. left. reflexivity.
Defined.

(** ** What a caller can rely on after an activation *)

Lemma run_all_log_extends env acts s :
  exists l, log (run_all env acts s) = (log s ++ l)%list.
Proof.
  revert s. induction acts as [|a acts IH]; intros s.
  - exists []. simpl. by rewrite app_nil_r.
  - rewrite run_all_cons. destruct (IH (activate_from env a s)) as [l ->].
    rewrite activate_from_frame. cbn [log]. eexists. by rewrite <- app_assoc.
Qed.

Lemma errors_truthy_app l1 l2 :
  errors_truthy (l1 ++ l2) = errors_truthy l1 && errors_truthy l2.
Proof. apply forallb_app. Qed.

(** One activation, seen from the caller: [loading] ends [false]; either
    nothing was thrown, the client is stored and [error] is what it was,
    or the thrown value is in [error]. *)
Lemma activate_outcome env a h db :
  loading (hook (activate env a h db)) = false /\
  ((count is_setError (log (activate env a h db)) = 0 /\
    errors_truthy (log (activate env a h db)) = true /\
    error (hook (activate env a h db)) = error h /\
    is_null (supabase (hook (activate env a h db))) = false /\
    isInitialized (hook (activate env a h db)) = true) \/
   (count is_setError (log (activate env a h db)) = 1 /\
    errors_truthy (log (activate env a h db))
      = truthy (error (hook (activate env a h db))) /\
    In (SetError (error (hook (activate env a h db)))) (log (activate env a h db)))).
Proof.
  unfold count, errors_truthy.
  setup_paths; (split; [done|]);
    first [ left; by split_and!
          | right; rewrite ?andb_true_r; split_and!; [done | done | auto 10] ].
Qed.

(** Across activations in which every thrown value is truthy, [error] is
    [null] or truthy, and after at least one activation a falsy [error]
    means that the client is stored. *)
Lemma run_all_ready env acts :
  forall s,
    error (hook s) = VNull \/ truthy (error (hook s)) = true ->
    errors_truthy (log (run_all env acts s)) = true ->
    (error (hook (run_all env acts s)) = VNull \/
     truthy (error (hook (run_all env acts s))) = true) /\
    (acts <> [] ->
     loading (hook (run_all env acts s)) = false /\
     (truthy (error (hook (run_all env acts s))) = false ->
      is_null (supabase (hook (run_all env acts s))) = false /\
      isInitialized (hook (run_all env acts s)) = true)).
Proof.
  induction acts as [|a acts IH]; intros s Hinv Htruthy; [done|].
  rewrite run_all_cons in *.
  assert (errors_truthy (log (activate_from env a s)) = true) as Hstep.
  { destruct (run_all_log_extends env acts (activate_from env a s)) as [l E].
    rewrite E, errors_truthy_app in Htruthy. by apply andb_true_iff in Htruthy as [? _]. }
  assert ((error (hook (activate_from env a s)) = VNull \/
           truthy (error (hook (activate_from env a s))) = true) /\
          loading (hook (activate_from env a s)) = false /\
          (truthy (error (hook (activate_from env a s))) = false ->
           is_null (supabase (hook (activate_from env a s))) = false /\
           isInitialized (hook (activate_from env a s)) = true)) as (Hinv1 & Hload1 & Hready1).
  { revert Hstep. rewrite activate_from_frame. cbn [hook log].
    rewrite errors_truthy_app. intros [_ Hr]%andb_true_iff.
    destruct (activate_outcome env a (hook s) (store s))
      as (Hl & [(_ & _ & He & Hc & Hi) | (_ & Ht & _)]).
    - rewrite He. by split_and!.
    - rewrite Hr in Ht. split_and!; [by right | done | congruence]. }
  destruct (IH _ Hinv1 Htruthy) as [IHinv IHready]. split; [done|].
  intros _. destruct acts as [|a' acts']; [done|]. by apply IHready.
Qed.

(** X10. After one or more activations of a mounted hook in which every
    thrown value was truthy (an error object, as the client library and
    [new Error] produce), [loading] is [false], and a falsy [error]
    guarantees that the client is stored and [isInitialized] is true: a
    caller that has tested [loading] and [error] can use [supabase]. *)
Theorem X10_no_error_means_ready env acts db :
  acts <> [] ->
  errors_truthy (log (run_all env acts (mounted db))) = true ->
  loading (hook (run_all env acts (mounted db))) = false /\
  (truthy (error (hook (run_all env acts (mounted db)))) = false ->
   error (hook (run_all env acts (mounted db))) = VNull /\
   is_null (supabase (hook (run_all env acts (mounted db)))) = false /\
   isInitialized (hook (run_all env acts (mounted db))) = true).
Proof.
  intros Hne Htruthy.
  destruct (run_all_ready env acts (mounted db)) as [Hinv Hready];
    [by left | done |].
  destruct (Hready Hne) as [Hload Hr]. split; [done|].
  intros Hfalsy. split; [|by apply Hr].
  destruct Hinv as [?|?]; [done | congruence].
Qed.

Lemma X10_no_error_means_ready_witness :
  let acts := [Examples.my_app Examples.fine defaultInitialize;
               Examples.my_app Examples.fine Examples.failing_callback] in
  let s := run_all Examples.page_with_global acts (mounted ∅) in
  loading (hook s) = false /\
  (truthy (error (hook s)) = false ->
   error (hook s) = VNull /\
   is_null (supabase (hook s)) = false /\
   isInitialized (hook s) = true).
Proof.
  apply (X10_no_error_means_ready Examples.page_with_global
           [Examples.my_app Examples.fine defaultInitialize;
            Examples.my_app Examples.fine Examples.failing_callback] ∅).
  - discriminate.
  - vm_compute. reflexivity.
Defined.

(** X11. The two components of the README, after one or more
    activations in which every thrown value was truthy: neither shows
    "Loading..." any more, [AgentChatApp] never shows "Initializing...",
    both show the same view, and when that view is the application
    itself the client its handlers call is not [null].  Before the first
    activation completes both show "Loading...". *)
Theorem X11_readme_components env acts db :
  acts <> [] ->
  errors_truthy (log (run_all env acts (mounted db))) = true ->
  App mount = ShowLoading /\ AgentChatApp mount = ShowLoading /\
  App (hook (run_all env acts (mounted db)))
    = AgentChatApp (hook (run_all env acts (mounted db))) /\
  (AgentChatApp (hook (run_all env acts (mounted db)))
     = ShowError (error (hook (run_all env acts (mounted db)))) \/
   AgentChatApp (hook (run_all env acts (mounted db)))
     = ShowApp (supabase (hook (run_all env acts (mounted db)))) /\
   is_null (supabase (hook (run_all env acts (mounted db)))) = false).
Proof.
  intros Hne Htruthy.
  destruct (run_all_ready env acts (mounted db)) as [_ Hready];
    [by left | done |].
  destruct (Hready Hne) as [Hload Hr].
  unfold App, AgentChatApp. rewrite Hload.
  destruct (truthy (error (hook (run_all env acts (mounted db))))) eqn:E.
  - split_and!; try done. by left.
  - destruct (Hr eq_refl) as [Hc Hi]. rewrite Hi. simpl.
    split_and!; try done. by right.
Qed.

Lemma X11_readme_components_witness :
  let acts := [Examples.my_app Examples.fine defaultInitialize] in
  let s := run_all Examples.page_with_global acts (mounted ∅) in
  App mount = ShowLoading /\ AgentChatApp mount = ShowLoading /\
  App (hook s) = AgentChatApp (hook s) /\
  (AgentChatApp (hook s) = ShowError (error (hook s)) \/
   AgentChatApp (hook s) = ShowApp (supabase (hook s)) /\
   is_null (supabase (hook s)) = false).
Proof.
  apply (X11_readme_components Examples.page_with_global
           [Examples.my_app Examples.fine defaultInitialize] ∅).
  - discriminate.
  - vm_compute. reflexivity.
Defined.

(** While something has been thrown, [error] holds the value that was
    thrown last. *)
Lemma run_all_error_logged env acts :
  forall s,
    (0 < count is_setError (log s) -> In (SetError (error (hook s))) (log s)) ->
    0 < count is_setError (log (run_all env acts s)) ->
    In (SetError (error (hook (run_all env acts s)))) (log (run_all env acts s)).
Proof.
  induction acts as [|a acts IH]; intros s Hs; [done|].
  rewrite run_all_cons. apply IH.
  rewrite activate_from_frame. cbn [hook log]. rewrite count_app.
  intros Hpos. apply in_or_app.
  destruct (activate_outcome env a (hook s) (store s))
    as (_ & [(Hc & _ & He & _) | (_ & _ & Hin)]).
  - left. rewrite He. apply Hs. lia.
  - by right.
Qed.

(** What one activation hands to [setError]: nothing, and then [error]
    is what it was; or one value, and then [error] is that value. *)
Lemma activate_error_writes env a h db :
  (error_writes (log (activate env a h db)) = [] /\
   error (hook (activate env a h db)) = error h) \/
  error_writes (log (activate env a h db)) = [error (hook (activate env a h db))].
Proof. unfold error_writes. setup_paths; auto. Qed.

Lemma error_writes_app l1 l2 :
  error_writes (l1 ++ l2) = (error_writes l1 ++ error_writes l2)%list.
Proof. apply omap_app. Qed.

(** [error] always holds the value handed to [setError] last, or its
    initial [null] when [setError] has not been called. *)
Lemma run_all_last_error env acts :
  forall s,
    error (hook s) = default VNull (last (error_writes (log s))) ->
    error (hook (run_all env acts s))
      = default VNull (last (error_writes (log (run_all env acts s)))).
Proof.
  induction acts as [|a acts IH]; intros s Hs; [done|].
  rewrite run_all_cons. apply IH.
  rewrite activate_from_frame. cbn [hook log].
  rewrite error_writes_app, last_app.
  destruct (activate_error_writes env a (hook s) (store s)) as [[-> ->] | ->]; done.
Qed.

Lemma count_setError_writes l : count is_setError l = length (error_writes l).
Proof.
  unfold count, error_writes.
  induction l as [|[] l IH]; simpl; auto.
Qed.

(** X12. Nothing ever clears [error]: once an activation of a mounted
    hook has thrown, [error] holds the value thrown last (the value of
    the last call to [setError]), through every later activation, also
    through successful ones that store a client.  With truthy thrown
    values, both components of the README therefore show their error
    view, with that value, from the first failure on, whatever happens
    afterwards. *)
Theorem X12_error_is_never_cleared env acts db :
  0 < count is_setError (log (run_all env acts (mounted db))) ->
  errors_truthy (log (run_all env acts (mounted db))) = true ->
  last (error_writes (log (run_all env acts (mounted db))))
    = Some (error (hook (run_all env acts (mounted db)))) /\
  In (SetError (error (hook (run_all env acts (mounted db)))))
     (log (run_all env acts (mounted db))) /\
  truthy (error (hook (run_all env acts (mounted db)))) = true /\
  App (hook (run_all env acts (mounted db)))
    = ShowError (error (hook (run_all env acts (mounted db)))) /\
  AgentChatApp (hook (run_all env acts (mounted db)))
    = ShowError (error (hook (run_all env acts (mounted db)))).
Proof.
  intros Hpos Htruthy.
  assert (acts <> []) as Hne by (intros ->; simpl in Hpos; unfold count in Hpos; simpl in Hpos; lia).
  pose proof (run_all_last_error env acts (mounted db) eq_refl) as Hlast.
  assert (last (error_writes (log (run_all env acts (mounted db))))
          = Some (error (hook (run_all env acts (mounted db))))) as Hl.
  { rewrite count_setError_writes in Hpos.
    destruct (last (error_writes (log (run_all env acts (mounted db))))) as [v|] eqn:E.
    - simpl in Hlast. by rewrite Hlast.
    - apply last_None in E. rewrite E in Hpos. simpl in Hpos. lia. }
  pose proof (run_all_error_logged env acts (mounted db)) as Hin.
  specialize (Hin ltac:(unfold count; simpl; lia) Hpos).
  assert (truthy (error (hook (run_all env acts (mounted db)))) = true) as Ht.
  { unfold errors_truthy in Htruthy. rewrite forallb_forall in Htruthy.
    exact (Htruthy _ Hin). }
  destruct (run_all_ready env acts (mounted db)) as [_ Hready];
    [by left | done |].
  destruct (Hready Hne) as [Hload _].
  unfold App, AgentChatApp. rewrite Hload, Ht. done.
Qed.

Lemma X12_error_is_never_cleared_witness :
  let acts := [Examples.my_app Examples.select_denied defaultInitialize;
               Examples.my_app Examples.fine Examples.failing_callback;
               Examples.my_app Examples.fine defaultInitialize] in
  let s := run_all Examples.page_with_global acts (mounted ∅) in
  last (error_writes (log s)) = Some (error (hook s)) /\
  In (SetError (error (hook s))) (log s) /\
  truthy (error (hook s)) = true /\
  App (hook s) = ShowError (error (hook s)) /\
  AgentChatApp (hook s) = ShowError (error (hook s)).
Proof.
  apply (X12_error_is_never_cleared Examples.page_with_global
           [Examples.my_app Examples.select_denied defaultInitialize;
            Examples.my_app Examples.fine Examples.failing_callback;
            Examples.my_app Examples.fine defaultInitialize] ∅).
  - vm_compute. lia.
  - vm_compute. reflexivity.
Defined.

(** ** Runs in which nothing fails *)

(** One activation in which no outside call fails and the callback
    returns: it ends without error; it skips the callback when the row of
    the global [appID] is flagged, and otherwise runs it once and flags
    the row of [appId]. *)
Lemma clean_step env g a h db :
  has_all_parameters env = true ->
  global_appID env = Some g ->
  fault_free (world a) ->
  returns_quietly (initialize a) ->
  count is_setError (log (activate env a h db)) = 0 /\
  isInitialized (hook (activate env a h db)) = true /\
  ((db !! g = Some true /\
    count is_initialize (log (activate env a h db)) = 0 /\
    count is_upsert (log (activate env a h db)) = 0 /\
    store (activate env a h db) = db) \/
   (db !! g <> Some true /\
    count is_initialize (log (activate env a h db)) = 1 /\
    count is_upsert (log (activate env a h db)) = 1 /\
    store (activate env a h db) = <[appId a := true]> db)).
Proof.
  intros Hvalid Hglobal (Hc & Hs & Hl & Hu) Hquiet.
  revert Hvalid Hglobal Hc Hs Hl Hu.
  unfold has_all_parameters, required, count.
  setup_paths; intros; simplify_eq/=;
    repeat match goal with
      | E : initialize a ?c ?d = _ |- _ => rewrite (Hquiet c d) in E; simplify_eq
      end;
    (split; [done|]); (split; [done|]);
    first [ left; by split_and! | right; split_and!; done ].
Qed.

Lemma run_all_clean env id acts :
  has_all_parameters env = true ->
  global_appID env = Some id ->
  Forall (fun a => appId a = id /\ fault_free (world a) /\
                   returns_quietly (initialize a)) acts ->
  forall s,
    count is_setError (log (run_all env acts s)) = count is_setError (log s) /\
    (acts <> [] -> isInitialized (hook (run_all env acts s)) = true) /\
    (store s !! id = Some true ->
       count is_initialize (log (run_all env acts s)) = count is_initialize (log s) /\
       count is_upsert (log (run_all env acts s)) = count is_upsert (log s) /\
       store (run_all env acts s) = store s) /\
    (store s !! id <> Some true -> acts <> [] ->
       count is_initialize (log (run_all env acts s)) = count is_initialize (log s) + 1 /\
       count is_upsert (log (run_all env acts s)) = count is_upsert (log s) + 1 /\
       store (run_all env acts s) = <[id := true]> (store s)).
Proof.
  intros Hvalid Hglobal.
  induction 1 as [|a acts (Hid & Hff & Hq) _ IH]; intros s.
  - simpl. split_and!; done.
  - rewrite run_all_cons.
    destruct (IH (activate_from env a s)) as (IHe & IHi & IHf & IHn).
    revert IHe IHi IHf IHn. rewrite activate_from_frame. cbn [hook store log].
    rewrite !count_app.
    destruct (clean_step env id a (hook s) (store s) Hvalid Hglobal Hff Hq)
      as (He & Hi & [(Hflag & Hci & Hcu & Hst) | (Hflag & Hci & Hcu & Hst)]);
      rewrite He, Hci, Hcu, Hst, ?Hid; intros IHe IHi IHf IHn.
    + split_and!; [lia | | | done].
      * intros _. destruct acts; [done | by apply IHi].
      * intros _. destruct (IHf Hflag) as (-> & -> & ->). split_and!; [lia | lia | done].
    + split_and!; [lia | | done | ].
      * intros _. destruct acts; [done | by apply IHi].
      * intros _ _. destruct (IHf ltac:(by rewrite lookup_insert_eq)) as (-> & -> & ->).
        split_and!; [lia | lia | done].
Qed.

(** X13. When the lookup is keyed by the identifier (the global [appID]
    equals [appId]), all four parameters are present, no outside call
    fails and the callback returns without touching the table: over any
    non-empty sequence of activations for that identifier no error is
    ever set, [isInitialized] ends true and the record ends flagged; and
    the callback and the upsert run exactly once in total (in the first
    activation) when the record was not flagged at the start, and not at
    all when it was. *)
Theorem X13_runs_once_when_nothing_fails env id acts db :
  has_all_parameters env = true ->
  global_appID env = Some id ->
  Forall (fun a => appId a = id /\ fault_free (world a) /\
                   returns_quietly (initialize a)) acts ->
  acts <> [] ->
  count is_setError (log (run_all env acts (mounted db))) = 0 /\
  isInitialized (hook (run_all env acts (mounted db))) = true /\
  store (run_all env acts (mounted db)) !! id = Some true /\
  (db !! id = Some true ->
     count is_initialize (log (run_all env acts (mounted db))) = 0 /\
     count is_upsert (log (run_all env acts (mounted db))) = 0 /\
     store (run_all env acts (mounted db)) = db) /\
  (db !! id <> Some true ->
     count is_initialize (log (run_all env acts (mounted db))) = 1 /\
     count is_upsert (log (run_all env acts (mounted db))) = 1 /\
     store (run_all env acts (mounted db)) = <[id := true]> db).
Proof.
  intros Hvalid Hglobal Hacts Hne.
  destruct (run_all_clean env id acts Hvalid Hglobal Hacts (mounted db))
    as (He & Hi & Hf & Hn).
  cbn [mounted store log] in He, Hf, Hn.
  change (count is_setError []) with 0 in He.
  change (count is_initialize []) with 0 in Hf, Hn.
  change (count is_upsert []) with 0 in Hf, Hn.
  fold (mounted db) in He, Hf, Hn.
  split_and!; [done | by apply Hi | | done | by intros H; apply Hn].
  destruct (decide (db !! id = Some true)) as [Hflag|Hflag].
  - destruct (Hf Hflag) as (_ & _ & ->). done.
  - destruct (Hn Hflag Hne) as (_ & _ & ->). by rewrite lookup_insert_eq.
Qed.

Lemma X13_runs_once_when_nothing_fails_witness :
  let acts := [Examples.my_app Examples.fine defaultInitialize;
               Examples.my_app Examples.fine defaultInitialize;
               Examples.my_app Examples.fine defaultInitialize] in
  let s := run_all Examples.page_with_global acts (mounted ∅) in
  count is_setError (log s) = 0 /\
  isInitialized (hook s) = true /\
  store s !! "my-app" = Some true /\
  ((∅ : gmap string bool) !! "my-app" = Some true ->
     count is_initialize (log s) = 0 /\ count is_upsert (log s) = 0 /\ store s = ∅) /\
  ((∅ : gmap string bool) !! "my-app" <> Some true ->
     count is_initialize (log s) = 1 /\ count is_upsert (log s) = 1 /\
     store s = <["my-app" := true]> ∅).
Proof.
  apply (X13_runs_once_when_nothing_fails Examples.page_with_global "my-app").
  - reflexivity.
  - reflexivity.
  - repeat (apply List.Forall_cons;
      [split; [reflexivity | split; [by repeat split | intros c db; reflexivity]] | ]).
    apply List.Forall_nil.
  - discriminate.
Defined.

Lemma run_all_mismatch env g acts :
  has_all_parameters env = true ->
  global_appID env = Some g ->
  Forall (fun a => appId a <> g /\ fault_free (world a) /\
                   returns_quietly (initialize a)) acts ->
  forall s,
    store s !! g <> Some true ->
    count is_setError (log (run_all env acts s)) = count is_setError (log s) /\
    count is_initialize (log (run_all env acts s))
      = count is_initialize (log s) + length acts /\
    count is_upsert (log (run_all env acts s))
      = count is_upsert (log s) + length acts /\
    store (run_all env acts s) !! g = store s !! g.
Proof.
  intros Hvalid Hglobal.
  induction 1 as [|a acts (Hid & Hff & Hq) _ IH]; intros s Hflag.
  - simpl. split_and!; [done | lia | lia | done].
  - rewrite run_all_cons. specialize (IH (activate_from env a s)).
    revert IH. rewrite activate_from_frame. cbn [hook store log length].
    rewrite !count_app.
    destruct (clean_step env g a (hook s) (store s) Hvalid Hglobal Hff Hq)
      as (He & _ & [(Hcontra & _) | (_ & Hci & Hcu & Hst)]); [done|].
    rewrite He, Hci, Hcu, Hst, lookup_insert_ne by done.
    intros IH. destruct (IH Hflag) as (-> & -> & -> & ->).
    split_and!; [lia | lia | lia | done].
Qed.

(** X14. When the global [appID] names another identifier than the
    [appId] the hook is given, the record that is written is never the one
    that is read: with all four parameters present, no failing call and a
    quiet callback, as long as the row of the global [appID] is not
    flagged every activation runs the callback and the upsert again, so
    over a sequence they run as many times as there are activations, and
    the row that is read stays as it was. *)
Theorem X14_mismatched_key_never_gates env g acts db :
  has_all_parameters env = true ->
  global_appID env = Some g ->
  Forall (fun a => appId a <> g /\ fault_free (world a) /\
                   returns_quietly (initialize a)) acts ->
  db !! g <> Some true ->
  count is_initialize (log (run_all env acts (mounted db))) = length acts /\
  count is_upsert (log (run_all env acts (mounted db))) = length acts /\
  count is_setError (log (run_all env acts (mounted db))) = 0 /\
  store (run_all env acts (mounted db)) !! g = db !! g.
Proof.
  intros Hvalid Hglobal Hacts Hflag.
  destruct (run_all_mismatch env g acts Hvalid Hglobal Hacts (mounted db) Hflag)
    as (He & Hi & Hu & Hs).
  by split_and!.
Qed.

Lemma X14_mismatched_key_never_gates_witness :
  let env := {| search := Examples.query; global_appID := Some "other-app" |} in
  let acts := [Examples.my_app Examples.fine defaultInitialize;
               Examples.my_app Examples.fine defaultInitialize;
               Examples.my_app Examples.fine defaultInitialize] in
  count is_initialize (log (run_all env acts (mounted Examples.installed))) = length acts /\
  count is_upsert (log (run_all env acts (mounted Examples.installed))) = length acts /\
  count is_setError (log (run_all env acts (mounted Examples.installed))) = 0 /\
  store (run_all env acts (mounted Examples.installed)) !! "other-app"
    = Examples.installed !! "other-app".
Proof.
  apply (X14_mismatched_key_never_gates
           {| search := Examples.query; global_appID := Some "other-app" |} "other-app").
  - reflexivity.
  - reflexivity.
  - repeat (apply List.Forall_cons;
      [split; [discriminate | split; [by repeat split | intros c db; reflexivity]] | ]).
    apply List.Forall_nil.
  - vm_compute. discriminate.
Defined.

(** ** Independence from the hook state *)

(** X15. [setupClient] never reads the four cells: started from any two
    hook states over the same table, an activation makes the same calls
    with the same answers, leaves the same table, and writes the same
    values; the two resulting states differ at most in the cell the
    activation did not write ([error] after a success, [supabase] and
    [isInitialized] after a failure).  A remount and a re-activation
    therefore behave alike towards the outside. *)
Theorem X15_cells_are_write_only env a h h' db :
  log (activate env a h db) = log (activate env a h' db) /\
  store (activate env a h db) = store (activate env a h' db) /\
  loading (hook (activate env a h db)) = loading (hook (activate env a h' db)) /\
  (count is_setError (log (activate env a h db)) = 0 ->
     supabase (hook (activate env a h db)) = supabase (hook (activate env a h' db)) /\
     isInitialized (hook (activate env a h db))
       = isInitialized (hook (activate env a h' db))) /\
  (count is_setError (log (activate env a h db)) <> 0 ->
     error (hook (activate env a h db)) = error (hook (activate env a h' db))).
Proof. unfold count. setup_paths; split_and!; done. Qed.

(** ** Failures of the first two calls *)

(** X16. With all four parameters present: when [createClient] throws,
    it is the only outside call of the activation; when it returns but
    the promise of [setSession] rejects, these two are the only ones.  In
    both cases the thrown value becomes [error], the table is untouched
    and neither the client nor [isInitialized] is set: the client that
    was constructed before a rejected session is dropped.  When neither
    fails, both calls are made before anything else. *)
Theorem X16_construction_and_session_failures env a h db :
  has_all_parameters env = true ->
  match createClient_throws (world a), setSession_rejects (world a) with
  | Some e, _ =>
      call_kinds (log (activate env a h db)) = [KCreateClient] /\
      error (hook (activate env a h db)) = e /\
      store (activate env a h db) = db /\
      supabase (hook (activate env a h db)) = supabase h /\
      isInitialized (hook (activate env a h db)) = isInitialized h
  | None, Some e =>
      call_kinds (log (activate env a h db)) = [KCreateClient; KSetSession] /\
      error (hook (activate env a h db)) = e /\
      store (activate env a h db) = db /\
      supabase (hook (activate env a h db)) = supabase h /\
      isInitialized (hook (activate env a h db)) = isInitialized h
  | None, None =>
      [KCreateClient; KSetSession] `prefix_of` call_kinds (log (activate env a h db))
  end.
Proof.
  unfold has_all_parameters, required, call_kinds.
  setup_paths; intros Hvalid; try discriminate Hvalid;
    repeat match goal with
      | |- context [setSession_rejects ?w] => destruct (setSession_rejects w)
      end;
    first [ done | eexists; reflexivity ].
Qed.

Lemma X16_construction_and_session_failures_witness :
  let w := {| createClient_throws := None;
              setSession_rejects := Some (VError "AuthApiError" "Invalid Refresh Token");
              select_fails := None; upsert_fails := None |} in
  let s := activate Examples.page_with_global
             (Examples.my_app w defaultInitialize) mount Examples.installed in
  call_kinds (log s) = [KCreateClient; KSetSession] /\
  error (hook s) = VError "AuthApiError" "Invalid Refresh Token" /\
  store s = Examples.installed /\
  supabase (hook s) = supabase mount /\
  isInitialized (hook s) = isInitialized mount.
Proof.
  apply (X16_construction_and_session_failures Examples.page_with_global
           (Examples.my_app
              {| createClient_throws := None;
                 setSession_rejects := Some (VError "AuthApiError" "Invalid Refresh Token");
                 select_fails := None; upsert_fails := None |}
              defaultInitialize) mount Examples.installed).
  reflexivity.
Defined.
